(** * Leetcode-To-Notion: a shallow embedding of the popup, options and
    content scripts, and the properties of their duplicate-detection,
    cache, schema-resolution and parsing code.

    Conventions of the embedding.
    - A JavaScript string is a [string]: a sequence of bytes.  The helpers
      of module [JS] treat the ASCII range the way JavaScript does
      (case folding of A-Z, the six ASCII white-space characters); bytes
      above 127 are opaque to them.
    - A JavaScript number that the code only uses as a non-negative
      integer (a problem number, a count of seconds) is an [N]; a
      timestamp or a pixel offset is a [Z].
    - [chrome.storage.local], [fetch] and the clock are explicit fields of
      the [State] the popup runs in; a rejected promise is the [Throw]
      outcome of the error monad [M].  Each storage call and each request
      may be rejected, as [storageFault] and [remote] say. *)

From Stdlib Require Import Ascii String.
From stdpp Require Import base strings list gmap sorting pretty.

Open Scope string_scope.

(** ** JavaScript string primitives used by the sources *)

Module JS.

(** [s.trimStart()], on ASCII white space. *)
Fixpoint trimStart (s : string) : string :=
  match s with
  | String a s' => if Ascii.is_space a then trimStart s' else s
  | EmptyString => EmptyString
  end.

(** [s.trim()]. *)
Definition trim (s : string) : string :=
  String.rev (trimStart (String.rev (trimStart s))).

(** [s.split(c)] for a one-character separator: never the empty list. *)
Fixpoint split (c : ascii) (s : string) : list string :=
  match s with
  | EmptyString => [EmptyString]
  | String a s' =>
      if decide (a = c) then EmptyString :: split c s'
      else match split c s' with
           | p :: ps => String a p :: ps
           | [] => [String a EmptyString]
           end
  end.

(** [l.join(sep)]. *)
Fixpoint join (sep : string) (l : list string) : string :=
  match l with
  | [] => EmptyString
  | [x] => x
  | x :: xs => x +:+ sep +:+ join sep xs
  end.

(** The character class [\d]. *)
Definition isDigit (a : ascii) : bool :=
  match Ascii.is_nat a with Some _ => true | None => false end.

Fixpoint allChars (p : ascii → bool) (s : string) : bool :=
  match s with
  | EmptyString => true
  | String a s' => p a && allChars p s'
  end.

(** [/^\d+$/.test(s)]. *)
Definition isDigits (s : string) : bool :=
  match s with
  | EmptyString => false
  | _ => allChars isDigit s
  end.

Definition digitValue (a : ascii) : N :=
  match Ascii.is_nat a with Some d => N.of_nat d | None => 0%N end.

Fixpoint numberFrom (acc : N) (s : string) : N :=
  match s with
  | EmptyString => acc
  | String a s' => numberFrom (acc * 10 + digitValue a)%N s'
  end.

(** [Number(s)] on a string of decimal digits. *)
Definition Number (s : string) : N := numberFrom 0%N s.

Definition lowerChar (a : ascii) : ascii :=
  let n := Ascii.nat_of_ascii a in
  if (65 <=? n)%nat && (n <=? 90)%nat then Ascii.ascii_of_nat (n + 32) else a.

(** [s.toLowerCase()], on the ASCII letters. *)
Fixpoint toLowerCase (s : string) : string :=
  match s with
  | EmptyString => EmptyString
  | String a s' => String (lowerChar a) (toLowerCase s')
  end.

(** [s.startsWith(p)]. *)
Definition startsWith (s p : string) : bool := String.prefix p s.

(** [s.includes(needle)]. *)
Fixpoint includes (s needle : string) : bool :=
  String.prefix needle s ||
  match s with
  | EmptyString => false
  | String _ s' => includes s' needle
  end.

(** [s.replace] of the global pattern of one character [c] by the empty
    string: every occurrence of the character removed. *)
Fixpoint removeChar (c : ascii) (s : string) : string :=
  match s with
  | EmptyString => EmptyString
  | String a s' =>
      if decide (a = c) then removeChar c s' else String a (removeChar c s')
  end.

(** [s.slice(n)]. *)
Fixpoint drop (n : nat) (s : string) : string :=
  match n, s with
  | S k, String _ s' => drop k s'
  | _, _ => s
  end.

(** [s.slice(0, n)]. *)
Fixpoint take (n : nat) (s : string) : string :=
  match n, s with
  | S k, String a s' => String a (take k s')
  | _, _ => EmptyString
  end.

(** The longest prefix of [s] whose characters all satisfy [p]. *)
Fixpoint takeWhile (p : ascii → bool) (s : string) : string :=
  match s with
  | String a s' => if p a then String a (takeWhile p s') else EmptyString
  | EmptyString => EmptyString
  end.

Definition dquote : ascii := Ascii.ascii_of_nat 34.
Definition newline : string := String (Ascii.ascii_of_nat 10) EmptyString.

(** Truthiness of a string: the empty string is falsy. *)
Definition truthy (s : string) : bool :=
  match s with EmptyString => false | _ => true end.

(** [l.includes(x)] on an array of strings. *)
Definition arrayIncludes (l : list string) (x : string) : bool :=
  bool_decide (x ∈ l).

End JS.

(** ** popup.js: manual time entry *)

Module Timer.

(** [parseTimeToMs(value)]; [None] is the source's [null]. *)
Definition parseTimeToMs (value : string) : option N :=
  let raw := JS.trim value in
  if negb (JS.truthy raw) then None
  else
    let parts := JS.trim <$> JS.split ":"%char raw in
    if (length parts <? 1)%nat || (3 <? length parts)%nat then None
    else if existsb (λ part, negb (JS.isDigits part)) parts then None
    else
      let '(hours, minutes, seconds) :=
        match parts with
        | [h; m; s] => (JS.Number h, JS.Number m, JS.Number s)
        | [m; s] => (0%N, JS.Number m, JS.Number s)
        | [s] => (0%N, 0%N, JS.Number s)
        | _ => (0%N, 0%N, 0%N)
        end in
      if (length parts =? 3)%nat && (59 <? minutes)%N then None
      else if (59 <? seconds)%N && (1 <? length parts)%nat then None
      else Some ((hours * 3600 + minutes * 60 + seconds) * 1000)%N.

End Timer.

(** ** content.js: the page extractor *)

Module Extractor.

(** What the extractor reads of the page: for a selector, the
    [textContent] of the elements [document.querySelectorAll] returns, in
    document order; and the [textContent] of the page's script elements. *)
Record Document := {
  querySelectorAll : string → list string;
  scripts : list string;
}.

Definition tagSelectors : list string :=
  [ "a[class*=" +:+ String JS.dquote ("topic-tag" +:+ String JS.dquote "]");
    ".topic-tag";
    "[data-cy=" +:+ String JS.dquote ("topic-tag" +:+ String JS.dquote "]");
    "div[class*=" +:+ String JS.dquote ("TopicTags" +:+ String JS.dquote "] a") ].

(** The [elements.forEach] of [extractTags]: a trimmed, non-empty text is
    pushed unless [tags] already includes it. *)
Fixpoint pushTags (tags : list string) (elements : list string) : list string :=
  match elements with
  | [] => tags
  | el :: rest =>
      let tag := JS.trim el in
      if JS.truthy tag && negb (JS.arrayIncludes tags tag)
      then pushTags (tags ++ [tag]) rest
      else pushTags tags rest
  end.

(** The loop over the selectors, left at the first selector after which
    [tags] is not empty. *)
Fixpoint tagsFromSelectors (doc : Document) (tags : list string)
    (selectors : list string) : list string :=
  match selectors with
  | [] => tags
  | selector :: rest =>
      let elements := querySelectorAll doc selector in
      if (0 <? length elements)%nat then
        let tags' := pushTags tags elements in
        if (0 <? length tags')%nat then tags'
        else tagsFromSelectors doc tags' rest
      else tagsFromSelectors doc tags rest
  end.

Definition isLineTerminator (a : ascii) : bool :=
  bool_decide (a = Ascii.ascii_of_nat 10) || bool_decide (a = Ascii.ascii_of_nat 13).

(** The lazy group [(.*?)] followed by a closing bracket: the characters up
    to the first closing bracket, none of them a line terminator. *)
Fixpoint lazyUntilBracket (s : string) : option string :=
  match s with
  | EmptyString => None
  | String a s' =>
      if bool_decide (a = "]"%char) then Some EmptyString
      else if isLineTerminator a then None
      else String a <$> lazyUntilBracket s'
  end.

Definition topicTagsKey : string :=
  String JS.dquote ("topicTags" +:+ String JS.dquote ":[").

(** [s.match] of the key [topicTagsKey] followed by the lazy group and a
    closing bracket: the group of the leftmost match. *)
Fixpoint matchTopicTags (s : string) : option string :=
  let here :=
    if JS.startsWith s topicTagsKey
    then lazyUntilBracket (JS.drop (String.length topicTagsKey) s)
    else None in
  match here with
  | Some group => Some group
  | None =>
      match s with
      | EmptyString => None
      | String _ s' => matchTopicTags s'
      end
  end.

Definition nameKey : string :=
  String JS.dquote ("name" +:+ String JS.dquote (":" +:+ String JS.dquote "")).

(** One match at the start of [s] of the key [nameKey], a group of one or
    more characters other than the double quote, and a double quote: the
    group. *)
Definition matchNameAt (s : string) : option string :=
  if JS.startsWith s nameKey then
    let rest := JS.drop (String.length nameKey) s in
    let group := JS.takeWhile (λ a, negb (bool_decide (a = JS.dquote))) rest in
    if JS.truthy group
       && JS.startsWith (JS.drop (String.length group) rest) (String JS.dquote "")
    then Some group else None
  else None.

(** [s.matchAll] of that pattern with the [g] flag: the groups of the successive
    matches; [skip] counts the characters of the last match still to pass. *)
Fixpoint matchAllNames (skip : nat) (s : string) : list string :=
  match s with
  | EmptyString => []
  | String _ s' =>
      match skip with
      | S k => matchAllNames k s'
      | O =>
          match matchNameAt s with
          | Some group =>
              group :: matchAllNames
                         (String.length nameKey + String.length group) s'
          | None => matchAllNames 0 s'
          end
      end
  end.

(** The fallback loop over the scripts: the first script that includes
    [topicTags] and matches supplies every name, each one pushed. *)
Fixpoint tagsFromScripts (tags : list string) (ss : list string) : list string :=
  match ss with
  | [] => tags
  | script :: rest =>
      if JS.includes script "topicTags" then
        match matchTopicTags script with
        | Some group => tags ++ matchAllNames 0 group
        | None => tagsFromScripts tags rest
        end
      else tagsFromScripts tags rest
  end.

(** [extractTags()]. *)
Definition extractTags (doc : Document) : list string :=
  let tags := tagsFromSelectors doc [] tagSelectors in
  if (length tags =? 0)%nat then tagsFromScripts tags (scripts doc) else tags.

(** A [.view-line] element of the editor, as [extractCodeFromDom] reads
    it: [parsePx(line.style.top)], [parsePx(line.style.left)] (a pixel
    offset, 0 when the style does not parse to a finite number) and
    [line.innerText].  The comparator only subtracts and compares the
    offsets, so they are taken in [Z]. *)
Record ViewLine := {
  styleTop : Z;
  styleLeft : Z;
  innerText : string;
}.

(** The object built for each line by the first [map]. *)
Record Line := {
  index : nat;
  top : Z;
  left : Z;
  text : string;
}.

(** [text.replace] of every no-break space (U+00A0, the bytes 194 160) by
    a space. *)
Fixpoint replaceNbsp (s : string) : string :=
  match s with
  | EmptyString => EmptyString
  | String a s' =>
      match s' with
      | String b r =>
          if bool_decide (a = Ascii.ascii_of_nat 194)
             && bool_decide (b = Ascii.ascii_of_nat 160)
          then String " "%char (replaceNbsp r)
          else String a (replaceNbsp s')
      | EmptyString => String a EmptyString
      end
  end.

Definition toLine (i : nat) (line : ViewLine) : Line :=
  {| index := i; top := styleTop line; left := styleLeft line;
     text := replaceNbsp (innerText line) |}.

(** The comparator handed to [sort]. *)
Definition compareLines (a b : Line) : Z :=
  if negb (top a =? top b)%Z then (top a - top b)%Z
  else if negb (left a =? left b)%Z then (left a - left b)%Z
  else (Z.of_nat (index a) - Z.of_nat (index b))%Z.

(** [a] may stand before [b] in the array [sort] returns. *)
Definition lineBefore (a b : Line) : Prop := (compareLines a b ≤ 0)%Z.

Global Instance lineBefore_dec a b : Decision (lineBefore a b) :=
  Z_le_dec _ _.

(** [Array.prototype.sort] with that comparator. *)
Definition sortLines (lines : list Line) : list Line :=
  merge_sort lineBefore lines.

(** [extractCodeFromDom()]; [editorRoot] is [None] when the page has no
    editor, else the [.view-line] elements in document order. *)
Definition extractCodeFromDom (editorRoot : option (list ViewLine))
    : option string :=
  match editorRoot with
  | None => None
  | Some viewLines =>
      let lines := text <$> sortLines (imap toLine viewLines) in
      let code := JS.trim (JS.join JS.newline lines) in
      if JS.truthy code then Some code else None
  end.

End Extractor.

(** ** The browser and the remote API, as the scripts see them *)

Module Chrome.

(** A value of [chrome.storage.local] under a key [problem_N].
    [timestamp] is optional because the reader defaults it to 0. *)
Record CacheEntry := {
  pageId : string;
  url : string;
  timestamp : option Z;
}.

(** The two credential keys, as [chrome.storage.local.get] returns them. *)
Record Settings := {
  notionToken : option string;
  databaseId : option string;
}.

(** The calls on [chrome.storage.local]; each returns a promise that the
    browser may reject. *)
Inductive StorageOp :=
| OpGet (keys : list string)
| OpSet (keys : list string)
| OpRemove (key : string).

(** A page object of the remote API, with the fields the code reads. *)
Record Page := {
  id : string;
  pageUrl : string;
  archived : bool;
  in_trash : bool;
}.

(** [Object.entries(db.properties)] with each [config.type]: the
    properties of the remote database in their declared order. *)
Definition Schema : Type := list (string * string).

(** A parsed response body, with the fields the code reads of it: the
    fields of the object itself when it is a page, [properties] when it is
    a database, [results] when it answers a query, [message] when it is an
    error. *)
Record Json := {
  self : Page;
  properties : option Schema;
  results : option (list Page);
  message : option string;
}.

(** A property value of a page to create. [PNumberOf v] stands for the
    object whose [number] is [Number(v)]. *)
Inductive Value := VStr (s : string) | VBool (b : bool).

Inductive PropertyValue :=
| PTitle (content link : string)
| PNumber (n : N)
| PNumberOf (v : Value)
| PRichText (content : string)
| PUrl (u : string)
| PSelect (name : string)
| PDate (start : string)
| PCheckbox (b : bool)
| PMultiSelect (names : list string)
| PNull.

(** A code block of the page body: its rich-text runs and its language. *)
Record Block := {
  rich_text : list string;
  language : string;
}.

(** The requests the popup sends, each with its bearer token. *)
Inductive Request :=
| GetDatabase (database token : string)
| QueryDatabase (database token property : string) (equals : N)
| GetPage (page token : string)
| CreatePage (database token : string)
    (props : gmap string PropertyValue) (children : list Block).

(** What [fetch] does with a request: the promise rejects, or resolves to
    a response with a status and a body that may or may not parse. *)
Inductive FetchResult :=
| Rejected
| Response (status : nat) (body : option Json).

(** The popup object, the part of the popup document it toggles, and the
    browser around it. *)
Record State := {
  (* chrome.storage.local *)
  settings : Settings;
  entries : gmap string CacheEntry;
  storageFault : StorageOp → bool;
  (* Date.now() *)
  now : Z;
  (* the network: the answers, and the requests sent, oldest first *)
  remote : Request → FetchResult;
  requests : list Request;
  (* this.problemData.number, this.notionPageId, this.notionPageUrl *)
  problemNumber : option N;
  notionPageId : option string;
  notionPageUrl : option string;
  (* the hidden class of #alreadySavedBadge and of #notionLinks *)
  badgeHidden : bool;
  linksHidden : bool;
  (* calls of validateCacheInBackground started and not awaited *)
  background : list (N * string * Settings);
}.

Definition setEntries (f : gmap string CacheEntry → gmap string CacheEntry)
    (s : State) : State :=
  {| settings := settings s; entries := f (entries s);
     storageFault := storageFault s; now := now s; remote := remote s;
     requests := requests s; problemNumber := problemNumber s;
     notionPageId := notionPageId s; notionPageUrl := notionPageUrl s;
     badgeHidden := badgeHidden s; linksHidden := linksHidden s;
     background := background s |}.

Definition setSettings (v : Settings) (s : State) : State :=
  {| settings := v; entries := entries s;
     storageFault := storageFault s; now := now s; remote := remote s;
     requests := requests s; problemNumber := problemNumber s;
     notionPageId := notionPageId s; notionPageUrl := notionPageUrl s;
     badgeHidden := badgeHidden s; linksHidden := linksHidden s;
     background := background s |}.

Definition setNow (t : Z) (s : State) : State :=
  {| settings := settings s; entries := entries s;
     storageFault := storageFault s; now := t; remote := remote s;
     requests := requests s; problemNumber := problemNumber s;
     notionPageId := notionPageId s; notionPageUrl := notionPageUrl s;
     badgeHidden := badgeHidden s; linksHidden := linksHidden s;
     background := background s |}.

Definition logRequest (r : Request) (s : State) : State :=
  {| settings := settings s; entries := entries s;
     storageFault := storageFault s; now := now s; remote := remote s;
     requests := requests s ++ [r]; problemNumber := problemNumber s;
     notionPageId := notionPageId s; notionPageUrl := notionPageUrl s;
     badgeHidden := badgeHidden s; linksHidden := linksHidden s;
     background := background s |}.

Definition setNotionPage (pid purl : option string) (s : State) : State :=
  {| settings := settings s; entries := entries s;
     storageFault := storageFault s; now := now s; remote := remote s;
     requests := requests s; problemNumber := problemNumber s;
     notionPageId := pid; notionPageUrl := purl;
     badgeHidden := badgeHidden s; linksHidden := linksHidden s;
     background := background s |}.

Definition setBadgeHidden (b : bool) (s : State) : State :=
  {| settings := settings s; entries := entries s;
     storageFault := storageFault s; now := now s; remote := remote s;
     requests := requests s; problemNumber := problemNumber s;
     notionPageId := notionPageId s; notionPageUrl := notionPageUrl s;
     badgeHidden := b; linksHidden := linksHidden s;
     background := background s |}.

Definition setLinksHidden (b : bool) (s : State) : State :=
  {| settings := settings s; entries := entries s;
     storageFault := storageFault s; now := now s; remote := remote s;
     requests := requests s; problemNumber := problemNumber s;
     notionPageId := notionPageId s; notionPageUrl := notionPageUrl s;
     badgeHidden := badgeHidden s; linksHidden := b;
     background := background s |}.

Definition setRemote (f : Request → FetchResult) (s : State) : State :=
  {| settings := settings s; entries := entries s;
     storageFault := storageFault s; now := now s; remote := f;
     requests := requests s; problemNumber := problemNumber s;
     notionPageId := notionPageId s; notionPageUrl := notionPageUrl s;
     badgeHidden := badgeHidden s; linksHidden := linksHidden s;
     background := background s |}.

Definition setFaults (f : StorageOp → bool) (s : State) : State :=
  {| settings := settings s; entries := entries s;
     storageFault := f; now := now s; remote := remote s;
     requests := requests s; problemNumber := problemNumber s;
     notionPageId := notionPageId s; notionPageUrl := notionPageUrl s;
     badgeHidden := badgeHidden s; linksHidden := linksHidden s;
     background := background s |}.

Definition spawn (task : N * string * Settings) (s : State) : State :=
  {| settings := settings s; entries := entries s;
     storageFault := storageFault s; now := now s; remote := remote s;
     requests := requests s; problemNumber := problemNumber s;
     notionPageId := notionPageId s; notionPageUrl := notionPageUrl s;
     badgeHidden := badgeHidden s; linksHidden := linksHidden s;
     background := background s ++ [task] |}.

(** *** Promises that resolve or reject, over that state *)

Inductive Err :=
| StorageError
| FetchError
| JsonError
| Error (msg : string).

Inductive Outcome (A : Type) :=
| Ok (a : A)
| Throw (e : Err).
Global Arguments Ok {A} a.
Global Arguments Throw {A} e.

Definition M (A : Type) : Type := State → Outcome A * State.

Definition ret {A} (a : A) : M A := λ s, (Ok a, s).

Definition bind {A B} (m : M A) (k : A → M B) : M B :=
  λ s, match m s with
       | (Ok a, s') => k a s'
       | (Throw e, s') => (Throw e, s')
       end.

Definition throw {A} (e : Err) : M A := λ s, (Throw e, s).

(** [try { m } catch (error) { handler }]. *)
Definition tryCatch {A} (m : M A) (handler : Err → M A) : M A :=
  λ s, match m s with
       | (Ok a, s') => (Ok a, s')
       | (Throw e, s') => handler e s'
       end.

Definition modify (f : State → State) : M unit := λ s, (Ok tt, f s).

Definition gets {A} (f : State → A) : M A := λ s, (Ok (f s), s).

End Chrome.

Declare Scope js_scope.
Delimit Scope js_scope with js.
Notation "'let*' x := m 'in' k" := (Chrome.bind m (λ x, k))
  (at level 10, x name, m at level 100, k at level 200) : js_scope.
Notation "m ;;; k" := (Chrome.bind m (λ _, k))
  (at level 100, k at level 200, right associativity) : js_scope.

(** ** popup.js: duplicate detection, the cache and the record writer *)

Module Popup.
Import Chrome.
Local Open Scope js_scope.

Definition CACHE_TTL : Z := 60 * 60 * 1000.

(** *** The browser calls *)

Definition storageCall (op : StorageOp) : M unit :=
  λ s, if storageFault s op then (Throw StorageError, s) else (Ok tt, s).

(** [chrome.storage.local.get(key)] followed by [result[key]]. *)
Definition storageGet (key : string) : M (option CacheEntry) :=
  storageCall (OpGet [key]) ;;; gets (λ s, entries s !! key).

(** [chrome.storage.local.set] of one cache entry. *)
Definition storageSet (key : string) (e : CacheEntry) : M unit :=
  storageCall (OpSet [key]) ;;; modify (setEntries (insert key e)).

(** [chrome.storage.local.remove(key)]. *)
Definition storageRemove (key : string) : M unit :=
  storageCall (OpRemove key) ;;; modify (setEntries (delete key)).

Definition dateNow : M Z := gets now.

(** [fetch(request)]: the request goes out, then the promise settles. *)
Definition fetch (r : Request) : M (nat * option Json) :=
  modify (logRequest r) ;;;
  let* answer := gets (λ s, remote s r) in
  match answer with
  | Rejected => throw FetchError
  | Response status body => ret (status, body)
  end.

(** [response.ok]. *)
Definition ok (response : nat * option Json) : bool :=
  (200 <=? response.1)%nat && (response.1 <=? 299)%nat.

(** [response.json()]. *)
Definition json (response : nat * option Json) : M Json :=
  match response.2 with
  | Some body => ret body
  | None => throw JsonError
  end.

(** A credential spliced into a template string. *)
Definition splice (o : option string) : string := default "undefined" o.

(** Truthiness of a credential. *)
Definition present (o : option string) : bool :=
  match o with Some v => JS.truthy v | None => false end.

(** [loadSettings()]. *)
Definition loadSettings : M Settings :=
  storageCall (OpGet ["notionToken"; "databaseId"]) ;;; gets settings.

(** *** The popup document *)

Definition showAlreadySavedBadge (show : bool) : M unit :=
  modify (setBadgeHidden (negb show)).

Definition showNotionLinks : M unit :=
  let* pid := gets notionPageId in
  let* purl := gets notionPageUrl in
  if present pid || present purl then modify (setLinksHidden false)
  else ret tt.

(** *** The cache *)

Definition cacheKey (problemNumber : N) : string :=
  "problem_" +:+ pretty problemNumber.

(** [getCachedPage(problemNumber)]. *)
Definition getCachedPage (problemNumber : N) : M (option CacheEntry) :=
  let key := cacheKey problemNumber in
  let* cached := storageGet key in
  match cached with
  | None => ret None
  | Some entry =>
      let* t := dateNow in
      let age := (t - default 0 (timestamp entry))%Z in
      if (CACHE_TTL <? age)%Z
      then storageRemove key ;;; ret None
      else ret (Some entry)
  end.

(** [cachePage(problemNumber, pageId, url)]. *)
Definition cachePage (problemNumber : N) (pid purl : string) : M unit :=
  let key := cacheKey problemNumber in
  let* t := dateNow in
  storageSet key {| pageId := pid; url := purl; timestamp := Some t |}.

(** [checkPageExists(pageId, settings)]. *)
Definition checkPageExists (pid : string) (st : Settings) : M bool :=
  tryCatch
    (let* response := fetch (GetPage pid (splice (notionToken st))) in
     if (response.1 =? 404)%nat then ret false
     else if negb (ok response) then ret false
     else
       let* page := json response in
       ret (negb (archived (self page)) && negb (in_trash (self page))))
    (λ _, ret false).

(** [validateCacheInBackground(problemNumber, pageId, settings)]. *)
Definition validateCacheInBackground (problemNumber : N) (pid : string)
    (st : Settings) : M unit :=
  tryCatch
    (let* exists_ := checkPageExists pid st in
     if negb exists_ then
       storageRemove (cacheKey problemNumber) ;;;
       modify (setNotionPage None None) ;;;
       showAlreadySavedBadge false ;;;
       modify (setLinksHidden true)
     else ret tt)
    (λ _, ret tt).

(** *** Schema resolution *)

(** The predicate of [aliases.some] in [findProperty]. *)
Definition aliasMatches (name alias : string) : bool :=
  bool_decide (JS.toLowerCase name = JS.toLowerCase alias)
  || JS.includes (JS.toLowerCase name) (JS.toLowerCase alias).

(** The condition under which the loop of [findProperty] returns. *)
Definition propertyMatches (aliases allowedTypes : list string)
    (prop : string * string) : bool :=
  existsb (aliasMatches prop.1) aliases
  && ((length allowedTypes =? 0)%nat || JS.arrayIncludes allowedTypes prop.2).

(** [findProperty(properties, aliases, allowedTypes)]. *)
Fixpoint findProperty (props : Schema) (aliases allowedTypes : list string)
    : option (string * string) :=
  match props with
  | [] => None
  | prop :: rest =>
      if propertyMatches aliases allowedTypes prop then Some prop
      else findProperty rest aliases allowedTypes
  end.

Definition numberAliases : list string :=
  ["Number"; "Problem Number"; "ID"; "#"; "编号"].

(** *** The remote lookup *)

(** [findPageInNotion(problemNumber, settings)]. *)
Definition findPageInNotion (problemNumber : N) (st : Settings)
    : M (option Page) :=
  tryCatch
    (let* dbResponse :=
       fetch (GetDatabase (splice (databaseId st)) (splice (notionToken st))) in
     if negb (ok dbResponse) then ret None
     else
       let* db := json dbResponse in
       let dbProperties := default [] (properties db) in
       match findProperty dbProperties numberAliases ["number"] with
       | None => ret None
       | Some numberProp =>
           let* queryResponse :=
             fetch (QueryDatabase (splice (databaseId st))
                      (splice (notionToken st)) numberProp.1 problemNumber) in
           if negb (ok queryResponse) then ret None
           else
             let* data := json queryResponse in
             match results data ≫= head with
             | Some page =>
                 if negb (archived page) && negb (in_trash page)
                 then ret (Some page) else ret None
             | None => ret None
             end
       end)
    (λ _, ret None).

(** Truthiness of [this.problemData.number]. *)
Definition truthyNumber (o : option N) : option N :=
  match o with
  | Some n => if (n =? 0)%N then None else Some n
  | None => None
  end.

(** [checkForDuplicate()].  The call of [validateCacheInBackground] is not
    awaited: it is queued in [background]. *)
Definition checkForDuplicate : M unit :=
  let* number := gets problemNumber in
  match truthyNumber number with
  | None => showAlreadySavedBadge false
  | Some n =>
      let* st := loadSettings in
      if negb (present (notionToken st)) || negb (present (databaseId st))
      then ret tt
      else
        tryCatch
          (let* cached := getCachedPage n in
           match cached with
           | Some entry =>
               modify (setNotionPage (Some (pageId entry)) (Some (url entry))) ;;;
               showAlreadySavedBadge true ;;;
               showNotionLinks ;;;
               modify (spawn (n, pageId entry, st))
           | None =>
               let* page := findPageInNotion n st in
               match page with
               | Some pg =>
                   modify (setNotionPage (Some (id pg)) (Some (pageUrl pg))) ;;;
                   showAlreadySavedBadge true ;;;
                   showNotionLinks ;;;
                   cachePage n (id pg) (pageUrl pg)
               | None => showAlreadySavedBadge false
               end
           end)
          (λ _, showAlreadySavedBadge false)
  end.

(** The queued background calls, run to completion in the order they were
    started. *)
Fixpoint runTasks (tasks : list (N * string * Settings)) : M unit :=
  match tasks with
  | [] => ret tt
  | (n, pid, st) :: rest =>
      validateCacheInBackground n pid st ;;; runTasks rest
  end.

(** *** The record writer *)

(** The object [prepareNotionData] returns, with the fields the writer
    reads. *)
Record Data := {
  problemName : string;
  dataUrl : string;
  number : option N;
  difficulty : string;
  status : string;
  timeSpent : string;
  dateCompleted : string;
  notes : string;
  dataLanguage : string;
  neededHint : bool;
  canRedo : bool;
  tags : option (list string);
  code : option string;
  codeLanguage : option string;
}.

(** [String(value)], [Boolean(value)]. *)
Definition toString (v : Value) : string :=
  match v with
  | VStr s => s
  | VBool true => "true"
  | VBool false => "false"
  end.

Definition toBoolean (v : Value) : bool :=
  match v with
  | VStr s => JS.truthy s
  | VBool b => b
  end.

(** [buildPropertyValue(type, value)]. *)
Definition buildPropertyValue (type : string) (value : Value) : PropertyValue :=
  if decide (type = "rich_text") then PRichText (toString value)
  else if decide (type = "url") then PUrl (toString value)
  else if decide (type = "number") then PNumberOf value
  else if decide (type = "select") then PSelect (toString value)
  else if decide (type = "date") then PDate (toString value)
  else if decide (type = "checkbox") then PCheckbox (toBoolean value)
  else PNull.

(** An element of [fieldConfigs]. *)
Record FieldConfig := {
  aliases : list string;
  types : list string;
  value : Value;
}.

Definition fieldConfigs (data : Data) : list FieldConfig :=
  [ {| aliases := ["Difficulty"; "难度"]; types := ["select"];
       value := VStr (difficulty data) |};
    {| aliases := ["Status"; "状态"]; types := ["select"];
       value := VStr (status data) |};
    {| aliases := ["URL"; "Link"; "链接"]; types := ["url"];
       value := VStr (dataUrl data) |};
    {| aliases := ["Time Spent"; "耗时"]; types := ["rich_text"];
       value := VStr (timeSpent data) |};
    {| aliases := ["Date Completed"; "完成日期"]; types := ["date"];
       value := VStr (dateCompleted data) |};
    {| aliases := ["Notes"; "备注"]; types := ["rich_text"];
       value := VStr (notes data) |};
    {| aliases := ["Language"; "语言"]; types := ["select"];
       value := VStr (dataLanguage data) |};
    {| aliases := ["Needed Hint"; "需要提示"; "Hint"; "Did I need a hint?"];
       types := ["checkbox"]; value := VBool (neededHint data) |};
    {| aliases := ["Can Redo"; "可以重做"; "Redo"; "Could I redo it in a week"];
       types := ["checkbox"]; value := VBool (canRedo data) |} ].

(** The loop over [fieldConfigs]. *)
Fixpoint addFields (dbProperties : Schema) (fields : list FieldConfig)
    (props : gmap string PropertyValue) : gmap string PropertyValue :=
  match fields with
  | [] => props
  | field :: rest =>
      let props' :=
        match findProperty dbProperties (aliases field) (types field) with
        | Some prop =>
            if bool_decide (prop.2 = "checkbox") || toBoolean (value field)
            then <[prop.1 := buildPropertyValue prop.2 (value field)]> props
            else props
        | None => props
        end in
      addFields dbProperties rest props'
  end.

(** The alternative of [titleProp]: the first entry whose type is
    [title]. *)
Definition firstTitle (dbProperties : Schema) : option (string * string) :=
  list_find (λ prop, prop.2 = "title") dbProperties ≫= λ hit, Some hit.2.

Definition noTitleError : Err := Error "No title property found in database".

(** [buildNotionProperties(data, dbProperties)]; [inl] is the error it
    throws. *)
Definition buildNotionProperties (data : Data) (dbProperties : Schema)
    : Err + gmap string PropertyValue :=
  let titleProp :=
    match findProperty dbProperties ["Problem Name"; "Name"; "Title"] ["title"] with
    | Some prop => Some prop
    | None => firstTitle dbProperties
    end in
  match titleProp with
  | None => inl noTitleError
  | Some titleProp =>
      let props : gmap string PropertyValue :=
        {[ titleProp.1 := PTitle (problemName data) (dataUrl data) ]} in
      let props :=
        match findProperty dbProperties numberAliases ["number"],
              truthyNumber (number data) with
        | Some numberProp, Some n => <[numberProp.1 := PNumber n]> props
        | _, _ => props
        end in
      let props := addFields dbProperties (fieldConfigs data) props in
      let props :=
        match findProperty dbProperties ["Tags"; "Topics"; "æ ‡ç­¾"]
                ["multi_select"], tags data with
        | Some tagsProp, Some ts =>
            if (0 <? length ts)%nat
            then <[tagsProp.1 := PMultiSelect ts]> props else props
        | _, _ => props
        end in
      inr props
  end.

(** [code.slice(i, i + 2000)] for [i] = 0, 2000, ... below [code.length]. *)
Definition chunks (code : string) : list string :=
  (λ k, JS.take 2000 (JS.drop (2000 * k) code))
    <$> seq 0 ((String.length code + 1999) / 2000).

(** [buildNotionChildren(data)]. *)
Definition buildNotionChildren (data : Data) : list Block :=
  match code data with
  | None => []
  | Some c =>
      if negb (JS.truthy c) then []
      else [ {| rich_text := chunks c;
                language :=
                  match codeLanguage data with
                  | Some l => if JS.truthy l then l else "python"
                  | None => "python"
                  end |} ]
  end.

(** [error.message || fallback]. *)
Definition messageOr (error : Json) (fallback : string) : string :=
  match message error with
  | Some m => if JS.truthy m then m else fallback
  | None => fallback
  end.

(** [sendToNotion(data, settings)]. *)
Definition sendToNotion (data : Data) (st : Settings) : M Json :=
  let* dbResponse :=
    fetch (GetDatabase (splice (databaseId st)) (splice (notionToken st))) in
  if negb (ok dbResponse) then
    let* error := json dbResponse in
    throw (Error (messageOr error "Failed to fetch database schema"))
  else
    let* db := json dbResponse in
    match buildNotionProperties data (default [] (properties db)) with
    | inl e => throw e
    | inr props =>
        let children := buildNotionChildren data in
        let* response :=
          fetch (CreatePage (splice (databaseId st)) (splice (notionToken st))
                   props children) in
        if negb (ok response) then
          let* error := json response in
          throw (Error (messageOr error "Failed to create Notion page"))
        else json response
    end.

End Popup.

(** ** options.js: the settings form *)

Module Options.
Import Chrome.
Local Open Scope js_scope.

(** The message [showStatus] is called with:
    - [FillAllFields]: Please fill in all required fields (error);
    - [UnsupportedToken]: Integration token must start with ntn_ or
      secret_ (error);
    - [BadDatabaseId]: Database ID must be 32 characters (letters and
      numbers) (error);
    - [Saved]: Settings saved successfully! (success);
    - [SaveFailed e]: Failed to save settings, with the message of [e]
      (error). *)
Inductive Status :=
| FillAllFields
| UnsupportedToken
| BadDatabaseId
| Saved
| SaveFailed (e : Err).

(** The class [[a-f0-9]] under the [i] flag. *)
Definition isHexChar (a : ascii) : bool :=
  let n := Ascii.nat_of_ascii a in
  ((48 <=? n) && (n <=? 57) || (97 <=? n) && (n <=? 102)
   || (65 <=? n) && (n <=? 70))%nat.

(** The test of the pattern of one or more such characters, anchored at
    both ends. *)
Definition isHexString (s : string) : bool :=
  JS.truthy s && JS.allChars isHexChar s.

Definition isSupportedToken (token : string) : bool :=
  JS.startsWith token "secret_" || JS.startsWith token "ntn_".

(** The condition under which the database identifier is refused. *)
Definition badDatabaseId (databaseId : string) : bool :=
  negb (String.length databaseId =? 32)%nat
  || negb (isHexString (JS.removeChar "-"%char databaseId)).

(** [saveSettings()], from the values of the two input fields. *)
Definition saveSettings (tokenField databaseIdField : string) : M Status :=
  let token := JS.trim tokenField in
  let databaseId := JS.trim databaseIdField in
  if negb (JS.truthy token) || negb (JS.truthy databaseId) then ret FillAllFields
  else if negb (isSupportedToken token) then ret UnsupportedToken
  else if badDatabaseId databaseId then ret BadDatabaseId
  else
    tryCatch
      (Popup.storageCall (OpSet ["notionToken"; "databaseId"]) ;;;
       modify (setSettings {| notionToken := Some token;
                              databaseId := Some databaseId |}) ;;;
       ret Saved)
      (λ e, ret (SaveFailed e)).

End Options.

(** ** popup.js: the stopwatch *)

Module Stopwatch.

(** [pad(num)]: the decimal digits of [num], with a leading zero when
    there is only one. *)
Definition pad (num : N) : string :=
  let digits := pretty num in
  if (String.length digits <? 2)%nat then "0" +:+ digits else digits.

(** [formatClock(elapsedMs)]. *)
Definition formatClock (elapsedMs : Z) : string :=
  let totalSeconds := Z.to_N (Z.max elapsedMs 0 / 1000) in
  let hours := (totalSeconds / 3600)%N in
  let minutes := ((totalSeconds mod 3600) / 60)%N in
  let seconds := (totalSeconds mod 60)%N in
  pad hours +:+ ":" +:+ pad minutes +:+ ":" +:+ pad seconds.

(** [this.timer]; [interval] tells whether the interval the timer started
    is still ticking. *)
Record Timer := {
  startTime : option Z;
  elapsedTime : Z;
  interval : bool;
  isRunning : bool;
}.

(** [getFormattedTime()], from [this.timer.elapsedTime]. *)
Definition getFormattedTime (elapsed : Z) : string :=
  let totalSeconds := (elapsed / 1000)%Z in
  let hours := (totalSeconds / 3600)%Z in
  let minutes := (Z.rem totalSeconds 3600 / 60)%Z in
  let seconds := Z.rem totalSeconds 60 in
  if (0 <? hours)%Z
  then pretty hours +:+ "h " +:+ pretty minutes +:+ "m " +:+ pretty seconds +:+ "s"
  else if (0 <? minutes)%Z
  then pretty minutes +:+ "m " +:+ pretty seconds +:+ "s"
  else pretty seconds +:+ "s".

(** The timer controls of the popup document. *)
Record Controls := {
  timerDisplay : string;
  manualTimeInput : string;
  startDisabled : bool;
  pauseDisabled : bool;
  resetDisabled : bool;
  startLabel : string;
  errorMessage : option string;
}.

(** The value stored under the key [timerState]. *)
Record Saved := {
  savedElapsedTime : Z;
  savedIsRunning : bool;
  savedStartTime : option Z;
  savedUrl : option string;
}.

(** The popup as the timer functions see it: the timer, the controls, the
    clock, whether the manual field has the focus, the answer of
    [chrome.tabs.query] ([None] when it rejects, else whether there is an
    active tab and its url if it has one), whether
    [chrome.storage.local.set] rejects, and the stored [timerState]. *)
Record Popup := {
  timer : Timer;
  controls : Controls;
  clock : Z;
  isEditingManualTime : bool;
  activeTab : option (option (option string));
  storageRejects : bool;
  timerState : option Saved;
}.

Definition setTimer (t : Timer) (p : Popup) : Popup :=
  {| timer := t; controls := controls p; clock := clock p;
     isEditingManualTime := isEditingManualTime p; activeTab := activeTab p;
     storageRejects := storageRejects p; timerState := timerState p |}.

Definition setControls (c : Controls) (p : Popup) : Popup :=
  {| timer := timer p; controls := c; clock := clock p;
     isEditingManualTime := isEditingManualTime p; activeTab := activeTab p;
     storageRejects := storageRejects p; timerState := timerState p |}.

Definition setClock (t : Z) (p : Popup) : Popup :=
  {| timer := timer p; controls := controls p; clock := t;
     isEditingManualTime := isEditingManualTime p; activeTab := activeTab p;
     storageRejects := storageRejects p; timerState := timerState p |}.

Definition setTimerState (v : option Saved) (p : Popup) : Popup :=
  {| timer := timer p; controls := controls p; clock := clock p;
     isEditingManualTime := isEditingManualTime p; activeTab := activeTab p;
     storageRejects := storageRejects p; timerState := v |}.

(** [updateTimerDisplay()]. *)
Definition updateTimerDisplay (p : Popup) : Popup :=
  let display := formatClock (elapsedTime (timer p)) in
  let c := controls p in
  setControls
    {| timerDisplay := display;
       manualTimeInput :=
         if negb (isEditingManualTime p) then display else manualTimeInput c;
       startDisabled := startDisabled c; pauseDisabled := pauseDisabled c;
       resetDisabled := resetDisabled c; startLabel := startLabel c;
       errorMessage := errorMessage c |} p.

(** [updateTimerButtons()]. *)
Definition updateTimerButtons (p : Popup) : Popup :=
  let c := controls p in
  let running := isRunning (timer p) in
  setControls
    {| timerDisplay := timerDisplay c; manualTimeInput := manualTimeInput c;
       startDisabled := running;
       pauseDisabled := negb running;
       resetDisabled :=
         if running then false else (elapsedTime (timer p) =? 0)%Z;
       startLabel :=
         if running then "Running..."
         else if (0 <? elapsedTime (timer p))%Z then "Resume Timer"
         else "Start Timer";
       errorMessage := errorMessage c |} p.

(** [showError(message)]. *)
Definition showError (message : string) (p : Popup) : Popup :=
  let c := controls p in
  setControls
    {| timerDisplay := timerDisplay c; manualTimeInput := manualTimeInput c;
       startDisabled := startDisabled c; pauseDisabled := pauseDisabled c;
       resetDisabled := resetDisabled c; startLabel := startLabel c;
       errorMessage := Some message |} p.

(** The url [saveTimerState] stores: that of the active tab when it has a
    non-empty one. *)
Definition activeTabUrl (tab : option (option string)) : option string :=
  match tab with
  | Some (Some u) => if JS.truthy u then Some u else None
  | _ => None
  end.

(** [saveTimerState()]: a failure of the tab query or of the write is
    caught and leaves the stored value as it was. *)
Definition saveTimerState (p : Popup) : Popup :=
  match activeTab p with
  | None => p
  | Some tab =>
      if storageRejects p then p
      else setTimerState
             (Some {| savedElapsedTime := elapsedTime (timer p);
                      savedIsRunning := isRunning (timer p);
                      savedStartTime := startTime (timer p);
                      savedUrl := activeTabUrl tab |}) p
  end.

(** [startTimer()]. *)
Definition startTimer (p : Popup) : Popup :=
  let t := timer p in
  if isRunning t then p
  else
    updateTimerButtons
      (saveTimerState
         (setTimer {| startTime := Some (clock p - elapsedTime t)%Z;
                      elapsedTime := elapsedTime t;
                      interval := true;
                      isRunning := true |} p)).

(** [pauseTimer()]. *)
Definition pauseTimer (p : Popup) : Popup :=
  let t := timer p in
  if negb (isRunning t) then p
  else
    updateTimerButtons
      (saveTimerState
         (setTimer {| startTime := startTime t;
                      elapsedTime := (clock p - default 0 (startTime t))%Z;
                      interval := false;
                      isRunning := false |} p)).

(** [resetTimer()]. *)
Definition resetTimer (p : Popup) : Popup :=
  updateTimerButtons
    (saveTimerState
       (updateTimerDisplay
          (setTimer {| startTime := None; elapsedTime := 0;
                       interval := false; isRunning := false |} p))).

(** [updateTimer()], the tick of the interval. *)
Definition updateTimer (p : Popup) : Popup :=
  let t := timer p in
  updateTimerDisplay
    (setTimer {| startTime := startTime t;
                 elapsedTime := (clock p - default 0 (startTime t))%Z;
                 interval := interval t;
                 isRunning := isRunning t |} p).

(** [applyManualTimeInput()]. *)
Definition applyManualTimeInput (p : Popup) : Popup :=
  match Timer.parseTimeToMs (manualTimeInput (controls p)) with
  | None =>
      let c := controls p in
      showError "Invalid time format. Use HH:MM:SS or MM:SS."
        (setControls
           {| timerDisplay := timerDisplay c;
              manualTimeInput := formatClock (elapsedTime (timer p));
              startDisabled := startDisabled c; pauseDisabled := pauseDisabled c;
              resetDisabled := resetDisabled c; startLabel := startLabel c;
              errorMessage := errorMessage c |} p)
  | Some manualMs =>
      let t := timer p in
      let elapsed := Z.of_N manualMs in
      saveTimerState
        (updateTimerButtons
           (updateTimerDisplay
              (setTimer {| startTime :=
                             if isRunning t then Some (clock p - elapsed)%Z
                             else startTime t;
                           elapsedTime := elapsed;
                           interval := interval t;
                           isRunning := isRunning t |} p)))
  end.

(** [loadTimerState()], when the read of the store and the tab query
    succeed: [None] is the rejection of the tab query. *)
Definition loadTimerState (p : Popup) : option Popup :=
  match timerState p with
  | None => Some (updateTimerButtons p)
  | Some state =>
      match activeTab p with
      | None => None
      | Some tab =>
          let same :=
            match tab, savedUrl state with
            | Some (Some u), Some v => bool_decide (v = u)
            | _, _ => false
            end in
          if same then
            let t := timer p in
            let p' := setTimer {| startTime := startTime t;
                                  elapsedTime := savedElapsedTime state;
                                  interval := interval t;
                                  isRunning := isRunning t |} p in
            Some (updateTimerButtons
                    (if savedIsRunning state then startTimer p'
                     else updateTimerDisplay p'))
          else Some (updateTimerButtons p)
      end
  end.

(** The interval ticks exactly while the timer runs, and a running timer
    has a start time. *)
Definition consistent (t : Timer) : Prop :=
  interval t = isRunning t ∧ (isRunning t = true → is_Some (startTime t)).

End Stopwatch.

(** ** More string primitives *)

Module Text.

Definition upperChar (a : ascii) : ascii :=
  let n := Ascii.nat_of_ascii a in
  if (97 <=? n)%nat && (n <=? 122)%nat then Ascii.ascii_of_nat (n - 32) else a.


(** The longest suffix of [s] whose first character does not satisfy
    [p]. *)
Fixpoint dropWhile (p : ascii → bool) (s : string) : string :=
  match s with
  | String a s' => if p a then dropWhile p s' else s
  | EmptyString => EmptyString
  end.

(** The class of word characters: letters, digits and the underscore. *)
Definition isWordChar (a : ascii) : bool :=
  let n := Ascii.nat_of_ascii a in
  ((48 <=? n) && (n <=? 57) || (65 <=? n) && (n <=? 90)
   || (97 <=? n) && (n <=? 122) || (n =? 95))%nat.

(** [s.replace(needle, replacement)] for a string [needle]: the first
    occurrence replaced. *)
Fixpoint replaceFirst (needle replacement s : string) : string :=
  if JS.startsWith s needle
  then replacement +:+ JS.drop (String.length needle) s
  else match s with
       | EmptyString => EmptyString
       | String a s' => String a (replaceFirst needle replacement s')
       end.

(** [s.endsWith(c)] for one character. *)
Fixpoint endsWithChar (c : ascii) (s : string) : bool :=
  match s with
  | EmptyString => false
  | String a EmptyString => bool_decide (a = c)
  | String _ s' => endsWithChar c s'
  end.

(** [s.slice(0, -1)]. *)
Fixpoint dropLast (s : string) : string :=
  match s with
  | EmptyString => EmptyString
  | String _ EmptyString => EmptyString
  | String a s' => String a (dropLast s')
  end.

End Text.

(** ** content.js: the other fields of the page *)

Module PageFields.
Import Extractor.

(** The page as the field extractors read it: the document, the path of
    its address and the rendered text of its body. *)
Record Page := {
  document : Document;
  pathname : string;
  bodyText : string;
}.

(** [document.querySelector(selector)], by its [textContent]. *)
Definition querySelector (doc : Document) (selector : string) : option string :=
  head (querySelectorAll doc selector).

Definition attributeSelector (prefix attribute suffix : string) : string :=
  prefix +:+ String JS.dquote (attribute +:+ String JS.dquote suffix).



(** The group of the leftmost match, in [path], of [/problems/] followed
    by one or more characters other than the slash. *)
Fixpoint matchProblems (path : string) : option string :=
  let here :=
    if JS.startsWith path "/problems/" then
      let group := JS.takeWhile (λ a, negb (bool_decide (a = "/"%char)))
                     (JS.drop 10 path) in
      if JS.truthy group then Some group else None
    else None in
  match here with
  | Some group => Some group
  | None =>
      match path with
      | EmptyString => None
      | String _ rest => matchProblems rest
      end
  end.

(** [extractProblemSlug()]. *)
Definition extractProblemSlug (pg : Page) : option string :=
  matchProblems (pathname pg).


(** The number a text starts with when a full stop follows it: the group
    of the pattern of one or more digits and a full stop, anchored at the
    start, read by [parseInt]. *)
Definition leadingNumber (text : string) : option N :=
  let digits := JS.takeWhile JS.isDigit text in
  if JS.truthy digits
     && JS.startsWith (JS.drop (String.length digits) text) "."
  then Some (JS.Number digits) else None.



Definition difficultySelectors : list string :=
  [ "[diff]";
    ".text-difficulty-easy";
    ".text-difficulty-medium";
    ".text-difficulty-hard";
    attributeSelector "div[class*=" "difficulty" "]" ].

(** The three tests made on the lowered text of an element. *)
Definition classify (text : string) : option string :=
  let text := JS.toLowerCase text in
  if JS.includes text "easy" || JS.includes text "简单" then Some "Easy"
  else if JS.includes text "medium" || JS.includes text "中等" then Some "Medium"
  else if JS.includes text "hard" || JS.includes text "困难" then Some "Hard"
  else None.

(** The loop over the selectors: the first element found whose text passes
    one of the tests decides. *)
Fixpoint difficultyFromSelectors (doc : Document) (selectors : list string)
    : option string :=
  match selectors with
  | [] => None
  | selector :: rest =>
      match querySelector doc selector ≫= classify with
      | Some d => Some d
      | None => difficultyFromSelectors doc rest
      end
  end.

Definition difficultyKey : string :=
  String JS.dquote ("difficulty" +:+ String JS.dquote (":" +:+ String JS.dquote "")).

(** The group of the leftmost match, in [s], of [difficultyKey], one or more
    word characters and a double quote. *)
Fixpoint matchDifficulty (s : string) : option string :=
  let here :=
    if JS.startsWith s difficultyKey then
      let rest := JS.drop (String.length difficultyKey) s in
      let group := JS.takeWhile Text.isWordChar rest in
      if JS.truthy group
         && JS.startsWith (JS.drop (String.length group) rest) (String JS.dquote "")
      then Some group else None
    else None in
  match here with
  | Some group => Some group
  | None =>
      match s with
      | EmptyString => None
      | String _ rest => matchDifficulty rest
      end
  end.

(** The loop over the scripts: the first script that includes the word and
    matches decides, with its first letter raised and the rest lowered. *)
Fixpoint difficultyFromScripts (ss : list string) : option string :=
  match ss with
  | [] => None
  | script :: rest =>
      let found :=
        if JS.includes script "difficulty" then matchDifficulty script else None in
      match found with
      | Some group =>
          Some (match group with
                | EmptyString => EmptyString
                | String a tail => String (Text.upperChar a) (JS.toLowerCase tail)
                end)
      | None => difficultyFromScripts rest
      end
  end.

(** [extractDifficulty()]. *)
Definition extractDifficulty (pg : Page) : string :=
  match difficultyFromSelectors (document pg) difficultySelectors with
  | Some d => d
  | None =>
      match difficultyFromScripts (scripts (document pg)) with
      | Some d => d
      | None => "Unknown"
      end
  end.





(** The group of the two acceptance patterns: one or more digits, an
    optional full stop, digits, and a percent sign, at the start of [s]. *)
Definition matchRate (s : string) : option string :=
  let whole := JS.takeWhile JS.isDigit s in
  let rest := JS.drop (String.length whole) s in
  if negb (JS.truthy whole) then None
  else if JS.startsWith rest "." then
    let fraction := JS.takeWhile JS.isDigit (JS.drop 1 rest) in
    if JS.startsWith (JS.drop (String.length fraction) (JS.drop 1 rest)) "%"
    then Some (whole +:+ "." +:+ fraction +:+ "%") else None
  else if JS.startsWith rest "%" then Some (whole +:+ "%") else None.

(** The leftmost match, in [s], of a word (compared as [same] says),
    colons and white space, and the rate. *)
Fixpoint matchAfter (same : string → string → bool) (word : string) (s : string)
    : option string :=
  let here :=
    if same (JS.take (String.length word) s) word then
      matchRate (Text.dropWhile (λ a, bool_decide (a = ":"%char) || Ascii.is_space a)
                   (JS.drop (String.length word) s))
    else None in
  match here with
  | Some group => Some group
  | None =>
      match s with
      | EmptyString => None
      | String _ rest => matchAfter same word rest
      end
  end.

(** [extractAcceptance()]. *)
Definition extractAcceptance (pg : Page) : option string :=
  match matchAfter (λ a b, bool_decide (JS.toLowerCase a = JS.toLowerCase b))
          "Acceptance" (bodyText pg) with
  | Some rate => Some rate
  | None => matchAfter (λ a b, bool_decide (a = b)) "通过率" (bodyText pg)
  end.

End PageFields.

(** ** content.js: code kept in the page's storage *)

Module StoredCode.
Import Extractor.
Local Set Warnings "-register-all".

(** A value [JSON.parse] returns.  A number is kept as the text
    [String] gives it and whether it is truthy; the fields of an object
    are in the order of [Object.values]. *)
Inductive JsonValue :=
| JNull
| JBool (b : bool)
| JNumber (text : string) (truthy : bool)
| JString (s : string)
| JArray (items : list JsonValue)
| JObject (fields : list (string * JsonValue)).

(** Truthiness. *)
Definition jsTruthy (v : JsonValue) : bool :=
  match v with
  | JNull => false
  | JBool b => b
  | JNumber _ t => t
  | JString s => JS.truthy s
  | JArray _ | JObject _ => true
  end.

(** [String(v)]. *)
Fixpoint jsString (v : JsonValue) : string :=
  match v with
  | JNull => "null"
  | JBool true => "true"
  | JBool false => "false"
  | JNumber text _ => text
  | JString s => s
  | JArray items =>
      JS.join ","
        ((fix each (l : list JsonValue) : list string :=
            match l with
            | [] => []
            | JNull :: rest => "" :: each rest
            | item :: rest => jsString item :: each rest
            end) items)
  | JObject _ => "[object Object]"
  end.

(** [obj.name]: [None] is [undefined]; an array has none of the names
    asked for. *)
Fixpoint field (name : string) (fields : list (string * JsonValue))
    : option JsonValue :=
  match fields with
  | [] => None
  | (k, v) :: rest => if decide (k = name) then Some v else field name rest
  end.

Definition property (name : string) (v : JsonValue) : option JsonValue :=
  match v with
  | JObject fields => field name fields
  | _ => None
  end.

(** [looksLikeCode(text)]. *)
Definition looksLikeCode (text : string) : bool :=
  if negb (JS.truthy text) then false
  else
    let trimmed := JS.trim text in
    if (String.length trimmed <? 10)%nat then false
    else JS.includes trimmed JS.newline
         || JS.includes trimmed "def "
         || JS.includes trimmed "class "
         || JS.includes trimmed "import ".

(** The first truthy value of a chain of alternatives, else the last
    one. *)
Fixpoint firstTruthy (candidates : list (option JsonValue)) (last : JsonValue)
    : JsonValue :=
  match candidates with
  | [] => last
  | Some v :: rest => if jsTruthy v then v else firstTruthy rest last
  | None :: rest => firstTruthy rest last
  end.

(** [isMatchingLanguage(obj, language)]. *)
Definition isMatchingLanguage (obj : JsonValue) (language : string) : bool :=
  if negb (JS.truthy language) then true
  else
    let lang := JS.toLowerCase language in
    let candidate :=
      JS.trim (JS.toLowerCase (jsString
        (firstTruthy [property "language" obj; property "lang" obj;
                      property "langSlug" obj; property "langSlugName" obj]
           (JString "")))) in
    if JS.truthy candidate then JS.includes candidate lang else true.

(** [Object.values(current)] for an object or an array; [None] for what
    the loop skips. *)
Definition values (current : JsonValue) : option (list JsonValue) :=
  match current with
  | JObject fields => Some (fields.*2)
  | JArray items => Some items
  | _ => None
  end.

(** The loop over the values of one object: the first string that looks
    like code ends the search; the objects and arrays met before it join
    the queue. *)
Fixpoint scan (vs : list JsonValue) (queue : list JsonValue)
    : string + list JsonValue :=
  match vs with
  | [] => inr queue
  | JString s :: rest =>
      if looksLikeCode s then inl s else scan rest queue
  | (JArray _ as v) :: rest | (JObject _ as v) :: rest => scan rest (queue ++ [v])
  | _ :: rest => scan rest queue
  end.

(** The while loop of [findCodeInObject], for at most [fuel] rounds. *)
Fixpoint search (fuel : nat) (queue : list JsonValue) (language : string)
    : option string :=
  match fuel, queue with
  | S fuel', current :: rest =>
      match values current with
      | None => search fuel' rest language
      | Some vs =>
          let own :=
            match property "code" current with
            | Some (JString c) =>
                if isMatchingLanguage current language && looksLikeCode c
                then Some c else None
            | _ => None
            end in
          match own with
          | Some c => Some c
          | None =>
              match scan vs rest with
              | inl c => Some c
              | inr queue' => search fuel' queue' language
              end
          end
      end
  | _, _ => None
  end.

(** The number of values in a value, itself included. *)
Fixpoint weight (v : JsonValue) : nat :=
  match v with
  | JArray items =>
      S ((fix sum (l : list JsonValue) : nat :=
            match l with [] => 0 | x :: rest => weight x + sum rest end) items)
  | JObject fields =>
      S ((fix sum (l : list (string * JsonValue)) : nat :=
            match l with [] => 0 | (_, x) :: rest => weight x + sum rest end) fields)
  | _ => 1
  end.

(** [findCodeInObject(obj, language)]: every round takes one value off the
    queue, and the queue never holds more than the values of [obj]. *)
Definition findCodeInObject (obj : JsonValue) (language : string) : option string :=
  search (weight obj) [obj] language.

(** [tryParseJson(value)], given the parser of the browser. *)
Definition tryParseJson (parse : string → option JsonValue) (value : string)
    : option JsonValue :=
  if negb (JS.truthy value) then None
  else
    let trimmed := JS.trim value in
    if negb (JS.startsWith trimmed "{" || JS.startsWith trimmed "[") then None
    else parse trimmed.

(** The loop over the keys of one storage. *)
Fixpoint searchStorage (parse : string → option JsonValue)
    (items : list (string * string)) (lang slugLower : string) : option string :=
  match items with
  | [] => None
  | (key, raw) :: rest =>
      let keyLower := JS.toLowerCase key in
      let found :=
        if negb (JS.truthy key) then None
        else if JS.truthy slugLower
                && negb (JS.includes keyLower slugLower)
                && negb (JS.includes keyLower "code")
                && negb (JS.includes keyLower "editor") then None
        else if negb (JS.truthy raw) then None
        else match tryParseJson parse raw with
             | Some parsed =>
                 if jsTruthy parsed then
                   match findCodeInObject parsed lang with
                   | Some c => if JS.truthy c then Some c else None
                   | None => None
                   end
                 else None
             | None => None
             end in
      match found with
      | Some c => Some c
      | None => searchStorage parse rest lang slugLower
      end
  end.

(** What [extractCode] reads: the editor of the page, if any, and the
    items of the local and of the session storage, in the order of their
    index. *)
Record Sources := {
  editorRoot : option (list ViewLine);
  localStorage : list (string * string);
  sessionStorage : list (string * string);
}.

(** [extractCodeFromStorage(language, slug)]. *)
Definition extractCodeFromStorage (parse : string → option JsonValue)
    (src : Sources) (language : string) (slug : option string) : option string :=
  let lang := JS.toLowerCase language in
  let slugLower := JS.toLowerCase (default "" slug) in
  match searchStorage parse (localStorage src) lang slugLower with
  | Some c => Some c
  | None => searchStorage parse (sessionStorage src) lang slugLower
  end.

(** [extractCode(language)]. *)
Definition extractCode (parse : string → option JsonValue) (src : Sources)
    (pg : PageFields.Page) (language : string) : option string :=
  match extractCodeFromDom (editorRoot src) with
  | Some c => Some c
  | None =>
      match extractCodeFromStorage parse src language
              (PageFields.extractProblemSlug pg) with
      | Some c => if JS.truthy c then Some c else None
      | None => None
      end
  end.

(** The number of values in the values of a queue. *)
Definition weights (queue : list JsonValue) : nat :=
  foldr (λ v total, weight v + total) 0 queue.

End StoredCode.

(** ** popup.js: saving a problem *)

Module Save.
Import Chrome Popup.
Local Open Scope js_scope.

(** The fields of [this.problemData] read when saving, besides [number],
    which is [problemNumber] of the state. *)
Record ProblemData := {
  title : string;
  problemUrl : string;
  problemDifficulty : string;
  problemTags : option (list string);
  problemCode : option string;
  problemCodeLanguage : option string;
}.

(** The values of the form: the status, the notes, the language when the
    element exists, and the two check boxes. *)
Record Form := {
  formStatus : string;
  formNotes : string;
  formLanguage : option string;
  formNeededHint : bool;
  formCanRedo : bool;
}.

(** What [showSuccess] and [showError] are called with:
    - [NoProblemPage]: Please open a LeetCode problem page first;
    - [NotConfigured]: Notion not configured, with the steps to configure;
    - [Updated]: Updated existing problem (Hint/Redo);
    - [SavedToNotion]: Successfully saved to Notion!;
    - [Failure text]: the message of the error caught, or the fallback of
      the path when the error has none; [BrowserMessage e] is the message
      the browser gives the error [e]. *)
Inductive Text :=
| Literal (text : string)
| BrowserMessage (e : Err).

Inductive Status :=
| NoProblemPage
| NotConfigured
| Updated
| SavedToNotion
| Failure (text : Text).

(** [error.message || fallback]. *)
Definition messageOf (e : Err) (fallback : string) : Text :=
  match e with
  | Error msg => Literal (if JS.truthy msg then msg else fallback)
  | _ => BrowserMessage e
  end.

(** A request that patches the properties of a page. *)
Record Patch := {
  patchPage : string;
  patchToken : string;
  patchProperties : gmap string PropertyValue;
}.

(** The popup when it saves: the state of the duplicate check, the problem
    extracted, the form, the elapsed time of the timer, the text of
    [new Date().toISOString()], the loading overlay, the status shown,
    whether the reset of the timer is scheduled, and the answers to and
    the list of the patch requests. *)
Record App := {
  base : State;
  problemData : option ProblemData;
  form : Form;
  elapsed : Z;
  isoNow : string;
  loading : bool;
  statusMessage : option Status;
  resetScheduled : bool;
  patchRemote : Patch → FetchResult;
  patches : list Patch;
}.

Definition setBase (s : State) (a : App) : App :=
  {| base := s; problemData := problemData a; form := form a;
     elapsed := elapsed a; isoNow := isoNow a; loading := loading a;
     statusMessage := statusMessage a; resetScheduled := resetScheduled a;
     patchRemote := patchRemote a; patches := patches a |}.

Definition setLoading (b : bool) (a : App) : App :=
  {| base := base a; problemData := problemData a; form := form a;
     elapsed := elapsed a; isoNow := isoNow a; loading := b;
     statusMessage := statusMessage a; resetScheduled := resetScheduled a;
     patchRemote := patchRemote a; patches := patches a |}.

Definition setStatus (m : Status) (a : App) : App :=
  {| base := base a; problemData := problemData a; form := form a;
     elapsed := elapsed a; isoNow := isoNow a; loading := loading a;
     statusMessage := Some m; resetScheduled := resetScheduled a;
     patchRemote := patchRemote a; patches := patches a |}.

Definition scheduleReset (a : App) : App :=
  {| base := base a; problemData := problemData a; form := form a;
     elapsed := elapsed a; isoNow := isoNow a; loading := loading a;
     statusMessage := statusMessage a; resetScheduled := true;
     patchRemote := patchRemote a; patches := patches a |}.

Definition logPatch (p : Patch) (a : App) : App :=
  {| base := base a; problemData := problemData a; form := form a;
     elapsed := elapsed a; isoNow := isoNow a; loading := loading a;
     statusMessage := statusMessage a; resetScheduled := resetScheduled a;
     patchRemote := patchRemote a; patches := patches a ++ [p] |}.

(** *** Promises over the saving popup *)

Definition MA (A : Type) : Type := App → Outcome A * App.

Definition retA {A} (x : A) : MA A := λ a, (Ok x, a).

Definition bindA {A B} (m : MA A) (k : A → MA B) : MA B :=
  λ a, match m a with
       | (Ok x, a') => k x a'
       | (Throw e, a') => (Throw e, a')
       end.

Definition throwA {A} (e : Err) : MA A := λ a, (Throw e, a).

(** [try { m } catch (error) { handler } finally { after }], for a handler
    and a final block that do not throw. *)
Definition tryCatchFinally (m : MA unit) (handler : Err → App → App)
    (after : App → App) : MA unit :=
  λ a, match m a with
       | (Ok _, a') => (Ok (), after a')
       | (Throw e, a') => (Ok (), after (handler e a'))
       end.

(** A call of the duplicate-check layer, run on [base]. *)
Definition lift {A} (m : M A) : MA A :=
  λ a, let '(o, s') := m (base a) in (o, setBase s' a).

Definition modifyA (f : App → App) : MA unit := λ a, (Ok (), f a).

Definition getsA {A} (f : App → A) : MA A := λ a, (Ok (f a), a).

(** [fetch] with the method PATCH. *)
Definition fetchPatch (p : Patch) : MA (nat * option Json) :=
  bindA (modifyA (logPatch p)) (λ _,
  bindA (getsA (λ a, patchRemote a p)) (λ answer,
  match answer with
  | Rejected => throwA FetchError
  | Response status body => retA (status, body)
  end)).

(** *** Preparing the data *)

(** [problemName.match] of the pattern of one or more digits and a full
    stop at the start. *)
Definition numbered (name : string) : bool :=
  let digits := JS.takeWhile JS.isDigit name in
  JS.truthy digits && JS.startsWith (JS.drop (String.length digits) name) ".".

(** The three replacements that normalise the url, and the change of
    domain. *)
Definition normalizeUrl (u : string) : string :=
  let u := Text.replaceFirst "/description/" "/" u in
  let u := Text.replaceFirst "/description" "" u in
  let u := if Text.endsWithChar "/"%char u then Text.dropLast u else u in
  if JS.includes u "leetcode.com"
  then Text.replaceFirst "leetcode.com" "leetcode.cn" u else u.

(** [prepareNotionData()]. *)
Definition prepareNotionData (pd : ProblemData) (num : option N) (f : Form)
    (elapsedMs : Z) (iso : string) : Data :=
  {| problemName :=
       match truthyNumber num with
       | Some n =>
           if negb (numbered (title pd)) then pretty n +:+ ". " +:+ title pd
           else title pd
       | None => title pd
       end;
     dataUrl := normalizeUrl (problemUrl pd);
     number := num;
     difficulty := problemDifficulty pd;
     status := formStatus f;
     timeSpent := Stopwatch.getFormattedTime elapsedMs;
     dateCompleted := iso;
     notes := formNotes f;
     dataLanguage :=
       match formLanguage f with
       | Some l => if JS.truthy l then l else "python"
       | None => "python"
       end;
     neededHint := formNeededHint f;
     canRedo := formCanRedo f;
     tags := problemTags pd;
     code := problemCode pd;
     codeLanguage := problemCodeLanguage pd |}.

(** *** Updating a page *)

Definition neededHintAliases : list string :=
  ["Needed Hint"; "需要提示"; "Hint"; "Did I need a hint?"].

Definition canRedoAliases : list string :=
  ["Can Redo"; "可以重做"; "Redo"; "Could I redo it in a week"].

(** The loop of [buildCheckboxUpdateProperties]. *)
Fixpoint addCheckboxes (dbProperties : Schema) (fields : list (list string * bool))
    (props : gmap string PropertyValue) : gmap string PropertyValue :=
  match fields with
  | [] => props
  | (fieldAliases, fieldValue) :: rest =>
      addCheckboxes dbProperties rest
        match findProperty dbProperties fieldAliases ["checkbox"] with
        | Some prop => <[prop.1 := PCheckbox fieldValue]> props
        | None => props
        end
  end.

(** [buildCheckboxUpdateProperties(data, dbProperties)]. *)
Definition buildCheckboxUpdateProperties (data : Data) (dbProperties : Schema)
    : gmap string PropertyValue :=
  addCheckboxes dbProperties
    [(neededHintAliases, neededHint data); (canRedoAliases, canRedo data)] ∅.

Definition noCheckboxError : Err :=
  Error ("No " +:+ String JS.dquote ("Needed Hint" +:+ String JS.dquote
         (" / " +:+ String JS.dquote ("Can Redo" +:+ String JS.dquote
         " checkbox properties found")))).

(** [updateExistingPage(pageId, data, settings)]. *)
Definition updateExistingPage (pid : string) (data : Data) (st : Settings)
    : MA Json :=
  bindA (lift (fetch (GetDatabase (splice (databaseId st))
                        (splice (notionToken st))))) (λ dbResponse,
  if negb (ok dbResponse) then
    bindA (lift (json dbResponse)) (λ error,
    throwA (Error (messageOr error "Failed to fetch database schema")))
  else
    bindA (lift (json dbResponse)) (λ db,
    let props := buildCheckboxUpdateProperties data (default [] (properties db)) in
    if (size props =? 0)%nat then throwA noCheckboxError
    else
      bindA (fetchPatch {| patchPage := pid;
                           patchToken := splice (notionToken st);
                           patchProperties := props |}) (λ response,
      if negb (ok response) then
        bindA (lift (json response)) (λ error,
        throwA (Error (messageOr error "Failed to update Notion page")))
      else lift (json response)))).

(** *** Saving *)

(** [saveProblem()]. *)
Definition saveProblem : MA unit :=
  bindA (getsA problemData) (λ current,
  match current with
  | None => modifyA (setStatus NoProblemPage)
  | Some pd =>
      bindA (lift loadSettings) (λ st,
      if negb (present (notionToken st)) || negb (present (databaseId st))
      then modifyA (setStatus NotConfigured)
      else
        bindA (getsA (λ a, notionPageId (base a))) (λ known,
        bindA (getsA (λ a, prepareNotionData pd (problemNumber (base a)) (form a)
                             (elapsed a) (isoNow a))) (λ data,
        if present known then
          bindA (modifyA (setLoading true)) (λ _,
          tryCatchFinally
            (bindA (updateExistingPage (default "" known) data st) (λ _,
             bindA (modifyA (setStatus Updated)) (λ _,
             bindA (lift (showAlreadySavedBadge true)) (λ _,
             lift showNotionLinks))))
            (λ e, setStatus (Failure (messageOf e "Failed to update existing problem")))
            (setLoading false))
        else
          bindA (modifyA (setLoading true)) (λ _,
          tryCatchFinally
            (bindA (lift (sendToNotion data st)) (λ notionPage,
             bindA (getsA (λ a, truthyNumber (problemNumber (base a)))) (λ num,
             bindA (match num with
                    | Some n => lift (cachePage n (id (self notionPage))
                                        (pageUrl (self notionPage)))
                    | None => retA ()
                    end) (λ _,
             bindA (lift (modify (setNotionPage (Some (id (self notionPage)))
                                    (Some (pageUrl (self notionPage)))))) (λ _,
             bindA (modifyA (setStatus SavedToNotion)) (λ _,
             bindA (lift (showAlreadySavedBadge true)) (λ _,
             bindA (lift showNotionLinks) (λ _,
             modifyA scheduleReset))))))))
            (λ e, setStatus (Failure (messageOf e "Failed to save to Notion")))
            (setLoading false)))))
  end).

(** The data [saveProblem] prepares in the popup [a] for the problem
    [pd]. *)
Definition preparedData (a : App) (pd : ProblemData) : Data :=
  prepareNotionData pd (problemNumber (base a)) (form a) (elapsed a) (isoNow a).

(** The popup is on a problem and the credentials can be read and are
    set. *)
Definition readyToSave (a : App) (pd : ProblemData) : Prop :=
  problemData a = Some pd
  ∧ storageFault (base a) (OpGet ["notionToken"; "databaseId"]) = false
  ∧ present (notionToken (settings (base a))) = true
  ∧ present (databaseId (settings (base a))) = true.

(** Everything of the saving popup but the state below it and the list of
    patches. *)
Definition appFrame (a : App) :=
  (problemData a, form a, elapsed a, isoNow a, loading a, statusMessage a,
   resetScheduled a, patchRemote a).

End Save.

(** * Notions and scenarios the properties are stated with *)

(** ** Pages and editors *)

Module ExtractorScenarios.
Import Extractor.

Definition quoted (s : string) : string :=
  String JS.dquote (s +:+ String JS.dquote EmptyString).

(** A page whose tag selectors match nothing and whose embedded data
    names the topic Array twice. *)
Definition repeatedTopicScript : string :=
  "{" +:+ quoted "topicTags" +:+ ":[{" +:+ quoted "name" +:+ ":" +:+ quoted "Array"
  +:+ "},{" +:+ quoted "name" +:+ ":" +:+ quoted "Array" +:+ "}]}".

Definition repeatedTopicPage : Document :=
  {| querySelectorAll := λ _, []; scripts := ["var a = 1;"; repeatedTopicScript] |}.

(** The order the comparator encodes: vertical offset first, then
    horizontal offset, then position in the document. *)
Definition lexBefore (a b : Line) : Prop :=
  (top a < top b
   ∨ (top a = top b
      ∧ (left a < left b
         ∨ (left a = left b ∧ Z.of_nat (index a) ≤ Z.of_nat (index b)))))%Z.

Definition viewLine (t l : Z) (x : string) : ViewLine :=
  {| styleTop := t; styleLeft := l; innerText := x |}.

Definition exampleLines : list ViewLine :=
  [viewLine 40 0 "b"; viewLine 0 0 "a"; viewLine 40 10 "c"].

Definition exampleText : string :=
  "a" +:+ JS.newline +:+ "b" +:+ JS.newline +:+ "c".

End ExtractorScenarios.

(** ** Popup states, remote answers and failures *)

Module PopupScenarios.
Import Chrome Popup.

Definition statusProp : string * string := ("Status", "select").
Definition hintStatusProp : string * string := ("Needed Hint Status", "select").

(** Entries older than [age] milliseconds at the time [now]. *)
Definition entryAge (t : Z) (entry : CacheEntry) : Z :=
  (t - default 0 (timestamp entry))%Z.

Definition sampleSettings : Settings :=
  {| notionToken := Some "secret_abc";
     databaseId := Some "12345678123412341234123456789abc" |}.

(** A popup opened on problem 42, nothing cached, the network down. *)
Definition offlineState : State :=
  {| settings := sampleSettings; entries := ∅;
     storageFault := λ _, false; now := 1700000000000;
     remote := λ _, Rejected; requests := [];
     problemNumber := Some 42%N;
     notionPageId := None; notionPageUrl := None;
     badgeHidden := true; linksHidden := true; background := [] |}.

Definition sampleEntry (t : Z) : CacheEntry :=
  {| pageId := "abc"; url := "https://www.notion.so/abc"; timestamp := Some t |}.

(** The same popup with an entry for problem 42 written [age] milliseconds
    ago. *)
Definition cachedState (age : Z) : State :=
  setEntries (insert (cacheKey 42) (sampleEntry (1700000000000 - age))) offlineState.

Definition sampleData : Data :=
  {| problemName := "1. Two Sum"; dataUrl := "https://leetcode.cn/problems/two-sum";
     number := Some 1%N; difficulty := "Easy"; status := "Solved";
     timeSpent := "12m 3s"; dateCompleted := "2024-01-01T00:00:00.000Z";
     notes := ""; dataLanguage := "python"; neededHint := false; canRedo := true;
     tags := Some ["Array"; "Hash Table"]; code := None; codeLanguage := None |}.

Definition dbRequest (st : Settings) : Request :=
  GetDatabase (splice (databaseId st)) (splice (notionToken st)).

Definition emptySchemaBody : Json :=
  {| self := {| id := "db"; pageUrl := ""; archived := false; in_trash := false |};
     properties := Some []; results := None; message := None |}.

(** The popup of [offlineState] in front of a database whose schema is
    empty. *)
Definition emptySchemaState : State :=
  {| settings := sampleSettings; entries := ∅;
     storageFault := λ _, false; now := 1700000000000;
     remote := λ _, Response 200 (Some emptySchemaBody); requests := [];
     problemNumber := Some 42%N;
     notionPageId := None; notionPageUrl := None;
     badgeHidden := true; linksHidden := true; background := [] |}.


(** Everything but the requests sent. *)
Definition offNetwork (s : State) :=
  (settings s, entries s, storageFault s, now s, remote s, problemNumber s,
   notionPageId s, notionPageUrl s, badgeHidden s, linksHidden s, background s).

(** The failures of the steps inside the guarded block of
    [checkForDuplicate], for problem [n] in state [s]: the cache read
    rejects; or the cache misses and the schema fetch is rejected, the
    schema has no number property, or the query is rejected. *)
Inductive GuardedFailure (s : State) (n : N) : Prop :=
| CacheReadFails e s1 :
    getCachedPage n s = (Throw e, s1) → GuardedFailure s n
| SchemaFetchFails s1 :
    getCachedPage n s = (Ok None, s1) →
    remote s (dbRequest (settings s)) = Rejected → GuardedFailure s n
| SchemaLacksNumber s1 status db :
    getCachedPage n s = (Ok None, s1) →
    remote s (dbRequest (settings s)) = Response status (Some db) →
    ok (status, Some db) = true →
    findProperty (default [] (properties db)) numberAliases ["number"] = None →
    GuardedFailure s n
| QueryFails s1 status db prop :
    getCachedPage n s = (Ok None, s1) →
    remote s (dbRequest (settings s)) = Response status (Some db) →
    ok (status, Some db) = true →
    findProperty (default [] (properties db)) numberAliases ["number"] = Some prop →
    remote s (QueryDatabase (splice (databaseId (settings s)))
                (splice (notionToken (settings s))) prop.1 n) = Rejected →
    GuardedFailure s n.

(** The popup of [offlineState] with a store that rejects every call. *)
Definition brokenStoreState : State :=
  {| settings := sampleSettings; entries := ∅;
     storageFault := λ _, true; now := 1700000000000;
     remote := λ _, Rejected; requests := [];
     problemNumber := Some 42%N;
     notionPageId := None; notionPageUrl := None;
     badgeHidden := true; linksHidden := true; background := [] |}.

Definition samplePage : Page :=
  {| id := "abc"; pageUrl := "https://www.notion.so/abc";
     archived := false; in_trash := false |}.

(** A remote database with a number property, holding one live page for
    every problem number. *)
Definition liveRemote (r : Request) : FetchResult :=
  match r with
  | GetDatabase _ _ =>
      Response 200 (Some {| self := samplePage;
                            properties := Some [("Name", "title"); ("Problem ID", "number")];
                            results := None; message := None |})
  | QueryDatabase _ _ _ _ =>
      Response 200 (Some {| self := samplePage; properties := None;
                            results := Some [samplePage]; message := None |})
  | GetPage _ _ =>
      Response 200 (Some {| self := samplePage; properties := None;
                            results := None; message := None |})
  | CreatePage _ _ _ _ =>
      Response 200 (Some {| self := samplePage; properties := None;
                            results := None; message := None |})
  end.

(** The popup of [offlineState] in front of that database. *)
Definition foundState : State := setRemote liveRemote offlineState.

End PopupScenarios.

(** ** Database identifiers *)

Module OptionsScenarios.
Import Chrome Options.

Fixpoint occurs (c : ascii) (s : string) : bool :=
  match s with
  | EmptyString => false
  | String a s' => bool_decide (a = c) || occurs c s'
  end.

Definition hyphenatedId : string := "12345678-1234-1234-1234-123456789abc".

End OptionsScenarios.

(** ** Stopwatches *)

Module StopwatchScenarios.
Import Stopwatch.

Definition leetcodeTab : option (option (option string)) :=
  Some (Some (Some "https://leetcode.com/problems/two-sum/")).

(** A popup whose timer stands at five seconds, on a problem tab. *)
Definition stoppedPopup : Popup :=
  {| timer := {| startTime := None; elapsedTime := 5000;
                 interval := false; isRunning := false |};
     controls := {| timerDisplay := "00:00:05"; manualTimeInput := "00:00:05";
                    startDisabled := false; pauseDisabled := true;
                    resetDisabled := false; startLabel := "Resume Timer";
                    errorMessage := None |};
     clock := 1700000000000;
     isEditingManualTime := false;
     activeTab := leetcodeTab;
     storageRejects := false;
     timerState := None |}.

(** The same popup a minute after its timer was started. *)
Definition runningPopup : Popup :=
  setClock 1700000060000 (startTimer stoppedPopup).

(** A popup just opened, with the timer the other popup stored when it was
    paused. *)
Definition reopenedPopup : Popup :=
  setTimerState (timerState (pauseTimer runningPopup))
    (setTimer {| startTime := None; elapsedTime := 0;
                 interval := false; isRunning := false |} stoppedPopup).

End StopwatchScenarios.

(** ** Pages and stored values *)

Module PageScenarios.
Import Extractor ExtractorScenarios PageFields StoredCode.

Definition twoSumDocument : Document :=
  {| querySelectorAll := λ selector,
       if decide (selector = ".css-v3d350") then ["  1. Two Sum "]
       else if decide (selector = ".text-difficulty-easy") then ["Easy"]
       else if decide (selector = ".text-label-1") then ["Problem 99"]
       else [];
     scripts := ["var a = 1;"] |}.

Definition twoSumPage : Page :=
  {| document := twoSumDocument;
     pathname := "/problems/two-sum/description/";
     bodyText := "Accepted 1.2M Acceptance: 53.2% of submissions" |}.


Definition editorSources : Sources :=
  {| editorRoot := Some exampleLines; localStorage := []; sessionStorage := [] |}.

End PageScenarios.

(** ** Payloads *)

Module WriterScenarios.
Import Chrome Popup PopupScenarios.

(** The type of schema property a value can be written to; [PNull], which
    [buildPropertyValue] returns for a type it does not know, has none. *)
Definition kindOf (v : PropertyValue) : option string :=
  match v with
  | PTitle _ _ => Some "title"
  | PNumber _ | PNumberOf _ => Some "number"
  | PRichText _ => Some "rich_text"
  | PUrl _ => Some "url"
  | PSelect _ => Some "select"
  | PDate _ => Some "date"
  | PCheckbox _ => Some "checkbox"
  | PMultiSelect _ => Some "multi_select"
  | PNull => None
  end.

(** Every property of the payload is a property of the schema, written
    with a value of the type the schema declares for it. *)
Definition wellTyped (schema : Schema) (props : gmap string PropertyValue) : Prop :=
  ∀ name v, props !! name = Some v →
    ∃ type, (name, type) ∈ schema ∧ kindOf v = Some type.

Definition sampleSchema : Schema :=
  [("Name", "title"); ("Problem ID", "number"); ("Status", "select");
   ("Tags", "multi_select"); ("Needed Hint", "checkbox")].

Definition codeData : Data :=
  {| problemName := "1. Two Sum"; dataUrl := "https://leetcode.cn/problems/two-sum";
     number := Some 1%N; difficulty := "Easy"; status := "Solved";
     timeSpent := "12m 3s"; dateCompleted := "2024-01-01T00:00:00.000Z";
     notes := ""; dataLanguage := "python"; neededHint := false; canRedo := true;
     tags := Some ["Array"; "Hash Table"];
     code := Some "print(1)"; codeLanguage := Some "python" |}.

(** The body the database of [liveRemote] answers with. *)
Definition liveSchemaBody : Json :=
  {| self := samplePage;
     properties := Some [("Name", "title"); ("Problem ID", "number")];
     results := None; message := None |}.

(** The body [liveRemote] answers a create request with. *)
Definition livePageBody : Json :=
  {| self := samplePage; properties := None; results := None; message := None |}.

Definition liveQueryBody : Json :=
  {| self := samplePage; properties := None;
     results := Some [samplePage]; message := None |}.

End WriterScenarios.

(** ** Saving popups *)

Module SaveScenarios.
Import Chrome Popup PopupScenarios Save.

Definition sampleProblem : ProblemData :=
  {| title := "Two Sum";
     problemUrl := "https://leetcode.com/problems/two-sum/description/";
     problemDifficulty := "Easy";
     problemTags := Some ["Array"; "Hash Table"];
     problemCode := None;
     problemCodeLanguage := None |}.

Definition sampleForm : Form :=
  {| formStatus := "Solved"; formNotes := ""; formLanguage := Some "python";
     formNeededHint := false; formCanRedo := true |}.

(** The popup of the state [s], on the sample problem, twelve minutes on
    the timer, every patch answered with success. *)
Definition savingPopup (s : State) : App :=
  {| base := s; problemData := Some sampleProblem; form := sampleForm;
     elapsed := 723000; isoNow := "2024-01-01T00:00:00.000Z";
     loading := false; statusMessage := None; resetScheduled := false;
     patchRemote := λ _, Response 200 (Some WriterScenarios.liveQueryBody);
     patches := [] |}.

(** A store that rejects every write. *)
Definition readOnlyStore (op : StorageOp) : bool :=
  match op with OpSet _ => true | _ => false end.

End SaveScenarios.

(** * Properties *)

(** ** Manual time entry *)

Section TimerProperties.
Import Timer.

Example parseTimeToMs_blank : parseTimeToMs "   " = None.
Proof. reflexivity. Qed.

Example parseTimeToMs_seconds_bound : parseTimeToMs "10:75" = None.
Proof. reflexivity. Qed.

Example parseTimeToMs_four_parts : parseTimeToMs "1:2:3:4" = None.
Proof. reflexivity. Qed.

(** C3, as stated, fails: the two-part input 90:00 is not rejected. *)
Lemma parseTimeToMs_90_00_not_rejected :
  ¬ (parseTimeToMs "90:00" = None
     ∧ parseTimeToMs "1:30:00" = Some 5400000%N
     ∧ parseTimeToMs "45" = Some 45000%N).
Proof. intros [H _]. vm_compute in H. discriminate H. Qed.

(** C3, amended: the minutes bound guards the three-part form only, so
    the two-part input 90:00 is read as ninety minutes, 5400000 ms, while
    1:90:00 is rejected; 1:30:00 parses to 5400000 ms and the bare
    seconds 45 to 45000 ms. *)
Theorem parseTimeToMs_examples :
  parseTimeToMs "90:00" = Some 5400000%N
  ∧ parseTimeToMs "1:90:00" = None
  ∧ parseTimeToMs "1:30:00" = Some 5400000%N
  ∧ parseTimeToMs "45" = Some 45000%N.
Proof. repeat split; reflexivity. Qed.

End TimerProperties.

(** ** Schema resolution *)

Section SchemaProperties.
Import Chrome Popup PopupScenarios.

Lemma findProperty_None props aliases allowedTypes :
  findProperty props aliases allowedTypes = None
  ↔ Forall (λ q, propertyMatches aliases allowedTypes q = false) props.
Proof.
  induction props as [|q props IH]; simpl.
  - split; [constructor | done].
  - destruct (propertyMatches aliases allowedTypes q) eqn:Hq.
    + split; [done | intros H; inversion H; congruence].
    + rewrite IH. split; [by constructor | by inversion 1].
Qed.

(** What [findProperty] returns is an entry of the schema that matches, and
    no entry declared before it matches. *)
Lemma findProperty_Some props aliases allowedTypes p :
  findProperty props aliases allowedTypes = Some p →
  ∃ pre post, props = (pre ++ p :: post)%list
    ∧ Forall (λ q, propertyMatches aliases allowedTypes q = false) pre
    ∧ propertyMatches aliases allowedTypes p = true.
Proof.
  induction props as [|q props IH]; simpl; [done|].
  destruct (propertyMatches aliases allowedTypes q) eqn:Hq.
  - intros [= ->]. by exists [], props.
  - intros (pre & post & -> & Hpre & Hp)%IH.
    exists (q :: pre), post. split_and!; [done | by constructor | done].
Qed.

(** An alias matches a name it equals up to case, and a name that contains
    it. *)
Example aliasMatches_exact : aliasMatches "STATUS" "Status" = true.
Proof. reflexivity. Qed.

Example aliasMatches_substring : aliasMatches "Needed Hint Status" "Status" = true.
Proof. reflexivity. Qed.

Example aliasMatches_other : aliasMatches "State" "Status" = false.
Proof. reflexivity. Qed.




(** Both declaration orders of the example of the specification. *)
Example findProperty_status_first :
  findProperty [statusProp; hintStatusProp] ["Status"] ["select"] = Some statusProp.
Proof. reflexivity. Qed.

Example findProperty_hint_status_first :
  findProperty [hintStatusProp; statusProp] ["Status"] ["select"]
  = Some hintStatusProp.
Proof. reflexivity. Qed.

End SchemaProperties.

(** ** The settings form *)

Section OptionsProperties.
Import Chrome Options OptionsScenarios.

Lemma removeChar_length_le c s :
  (String.length (JS.removeChar c s) ≤ String.length s)%nat.
Proof.
  induction s as [|a s IH]; simpl; [done|].
  destruct (decide (a = c)); simpl; lia.
Qed.

Lemma removeChar_length_lt c s :
  occurs c s = true → (String.length (JS.removeChar c s) < String.length s)%nat.
Proof.
  induction s as [|a s IH]; simpl; [done|].
  destruct (decide (a = c)) as [->|Hne]; simpl.
  - intros _. pose proof (removeChar_length_le c s). lia.
  - rewrite bool_decide_eq_false_2 by done. simpl. intros H%IH. lia.
Qed.

(** The token is accepted exactly when it starts with one of the two
    prefixes. *)
Lemma isSupportedToken_spec token :
  isSupportedToken token = true
  ↔ String.prefix "secret_" token = true ∨ String.prefix "ntn_" token = true.
Proof. unfold isSupportedToken, JS.startsWith. apply orb_true_iff. Qed.

(** The identifier is accepted exactly when the text as typed has 32
    characters and what is left of it without its hyphens is a non-empty
    string of hexadecimal digits. *)
Lemma badDatabaseId_spec d :
  badDatabaseId d = false
  ↔ String.length d = 32
    ∧ isHexString (JS.removeChar "-"%char d) = true.
Proof.
  unfold badDatabaseId. rewrite orb_false_iff, !negb_false_iff.
  by rewrite Nat.eqb_eq.
Qed.

(** An identifier written with hyphens whose stripped form has 32
    characters is always refused: the length is measured before the
    hyphens are removed. *)
Lemma badDatabaseId_hyphenated d :
  occurs "-"%char d = true →
  String.length (JS.removeChar "-"%char d) = 32 →
  badDatabaseId d = true.
Proof.
  intros Hocc Hlen. apply removeChar_length_lt in Hocc.
  unfold badDatabaseId. apply orb_true_iff. left.
  apply negb_true_iff, Nat.eqb_neq. lia.
Qed.

Example hyphenatedId_stripped :
  JS.removeChar "-"%char hyphenatedId = "12345678123412341234123456789abc"
  ∧ String.length (JS.removeChar "-"%char hyphenatedId) = 32
  ∧ isHexString (JS.removeChar "-"%char hyphenatedId) = true.
Proof. repeat split; reflexivity. Qed.

(** C9, on the code: with a supported token and the hyphenated identifier
    12345678-1234-1234-1234-123456789abc, whose stripped form is 32
    hexadecimal digits, [saveSettings] reports the identifier as invalid and
    stores nothing. *)
Theorem saveSettings_refuses_hyphenated_id s :
  saveSettings "secret_abc" hyphenatedId s = (Ok BadDatabaseId, s).
Proof. reflexivity. Qed.

(** The same identifier without its hyphens is stored. *)
Example saveSettings_plain_id s :
  storageFault s (OpSet ["notionToken"; "databaseId"]) = false →
  ∃ s', saveSettings " ntn_abc " "12345678123412341234123456789abc" s = (Ok Saved, s')
    ∧ settings s' = {| notionToken := Some "ntn_abc";
                       databaseId := Some "12345678123412341234123456789abc" |}.
Proof.
  intros Hok. eexists. split.
  - unfold saveSettings, tryCatch, bind, Popup.storageCall; simpl.
    rewrite Hok. reflexivity.
  - reflexivity.
Qed.

(** And 32 typed characters of which one is a hyphen are stored too,
    although only 31 hexadecimal digits remain. *)
Example badDatabaseId_31_digits :
  badDatabaseId "1234567890abcdef-234567890abcdef" = false.
Proof. reflexivity. Qed.

End OptionsProperties.

(** ** Topic tags *)

Section TagProperties.
Import Extractor ExtractorScenarios.

Lemma pushTags_NoDup tags elements :
  NoDup tags → NoDup (pushTags tags elements).
Proof.
  revert tags. induction elements as [|el rest IH]; intros tags Hnd; simpl; [done|].
  destruct (JS.truthy (JS.trim el)); simpl; [|by apply IH].
  unfold JS.arrayIncludes. case_bool_decide; simpl; [by apply IH|].
  apply IH. apply NoDup_app. split_and!; [done | | apply NoDup_singleton].
  intros x Hx ->%list_elem_of_singleton. done.
Qed.

Lemma tagsFromSelectors_NoDup doc tags selectors :
  NoDup tags → NoDup (tagsFromSelectors doc tags selectors).
Proof.
  revert tags. induction selectors as [|sel rest IH]; intros tags Hnd; simpl; [done|].
  destruct (0 <? length (querySelectorAll doc sel))%nat; [|by apply IH].
  destruct (0 <? length _)%nat; [by apply pushTags_NoDup|].
  by apply IH, pushTags_NoDup.
Qed.

(** On the selector path the tags are free of duplicates. *)
Lemma extractTags_dom_NoDup doc :
  tagsFromSelectors doc [] tagSelectors ≠ [] → NoDup (extractTags doc).
Proof.
  intros Hne. unfold extractTags.
  destruct (tagsFromSelectors doc [] tagSelectors) as [|t ts] eqn:E; [done|].
  simpl. rewrite <- E. apply tagsFromSelectors_NoDup, NoDup_nil_2.
Qed.

(** C10, on the code: on the embedded-script path every name is pushed, so
    for that page the tags are Array, Array. *)
Theorem extractTags_script_duplicates :
  extractTags repeatedTopicPage = ["Array"; "Array"]
  ∧ ¬ NoDup (extractTags repeatedTopicPage).
Proof.
  assert (E : extractTags repeatedTopicPage = ["Array"; "Array"]) by reflexivity.
  split; [exact E|]. rewrite E. intros H.
  apply NoDup_cons in H as [Hin _]. apply Hin. by left.
Qed.

(** The same names under one of the selectors are kept once. *)
Example extractTags_dom_example :
  extractTags {| querySelectorAll := λ sel,
                   if decide (sel = ".topic-tag")
                   then [" Array "; "Hash Table"; "Array"; "  "] else [];
                 scripts := [repeatedTopicScript] |}
  = ["Array"; "Hash Table"].
Proof. reflexivity. Qed.

End TagProperties.

(** ** Reconstruction of the editor's lines *)

Section CodeProperties.
Import Extractor ExtractorScenarios.

Lemma lineBefore_lexBefore a b : lineBefore a b ↔ lexBefore a b.
Proof.
  unfold lineBefore, lexBefore, compareLines.
  destruct (Z.eqb_spec (top a) (top b)); simpl; [|lia].
  destruct (Z.eqb_spec (left a) (left b)); simpl; lia.
Qed.

Global Instance lineBefore_total : Total lineBefore.
Proof. intros a b. rewrite !lineBefore_lexBefore. unfold lexBefore. lia. Qed.

Global Instance lineBefore_trans : Transitive lineBefore.
Proof.
  intros a b c. rewrite !lineBefore_lexBefore. unfold lexBefore. lia.
Qed.






(** Lines at one offset keep the order of the document. *)
Example extractCodeFromDom_ties :
  extractCodeFromDom (Some [viewLine 0 0 "x"; viewLine 0 0 "y"; viewLine 0 0 "z"])
  = Some ("x" +:+ JS.newline +:+ "y" +:+ JS.newline +:+ "z").
Proof. reflexivity. Qed.

Example extractCodeFromDom_no_editor : extractCodeFromDom None = None.
Proof. reflexivity. Qed.

End CodeProperties.

(** ** The cache *)

Section CacheProperties.
Import Chrome Popup PopupScenarios.

Local Ltac js_step :=
  cbv beta iota delta
    [getCachedPage cachePage storageGet storageSet storageRemove storageCall
     dateNow bind ret throw tryCatch modify gets];
  cbn [storageFault entries now setEntries setNow fst snd].

(** Distinct problem numbers never share a key. *)
Lemma cacheKey_inj n m : cacheKey n = cacheKey m → n = m.
Proof.
  unfold cacheKey. intros H.
  apply (inj pretty). by simplify_eq/=.
Qed.

Lemma getCachedPage_expired s n entry :
  storageFault s (OpGet [cacheKey n]) = false →
  storageFault s (OpRemove (cacheKey n)) = false →
  entries s !! cacheKey n = Some entry →
  (CACHE_TTL < entryAge (now s) entry)%Z →
  let s' := setEntries (delete (cacheKey n)) s in
  getCachedPage n s = (Ok None, s')
  ∧ entries s' !! cacheKey n = None
  ∧ getCachedPage n s' = (Ok None, s').
Proof.
  intros Hget Hrem Hentry Hage s'. unfold entryAge in Hage.
  assert (Hgone : entries s' !! cacheKey n = None) by apply lookup_delete_eq.
  split_and!; [| exact Hgone |].
  - js_step. rewrite Hget. js_step. rewrite Hentry. js_step.
    destruct (Z.ltb_spec CACHE_TTL (now s - default 0 (timestamp entry))%Z); [|lia].
    js_step. by rewrite Hrem.
  - js_step. subst s'. cbn [storageFault setEntries]. rewrite Hget. js_step.
    by rewrite lookup_delete_eq.
Qed.

(** A value [getCachedPage] resolves to is either absent or the whole entry
    stored under the key, unexpired, and then nothing is changed. *)
Lemma getCachedPage_all_or_nothing s n r s' :
  getCachedPage n s = (Ok r, s') →
  r = None
  ∨ (∃ entry, r = Some entry ∧ entries s !! cacheKey n = Some entry
       ∧ (entryAge (now s) entry ≤ CACHE_TTL)%Z ∧ s' = s).
Proof.
  js_step. destruct (storageFault s (OpGet [cacheKey n])); [done|]. js_step.
  destruct (entries s !! cacheKey n) as [entry|] eqn:Hentry; js_step.
  - destruct (Z.ltb_spec CACHE_TTL (now s - default 0 (timestamp entry))%Z); js_step.
    + destruct (storageFault s (OpRemove (cacheKey n))); [done|].
      intros [= <- <-]. by left.
    + intros [= <- <-]. right. by exists entry.
  - intros [= <- <-]. by left.
Qed.

(** C5: for an entry older than the hour, [getCachedPage] resolves to
    absent and the entry is removed from the store; a second call resolves
    to absent again, with no error and nothing more to remove; and whatever
    state it is called in, a value it resolves to is absent or the whole
    stored entry. *)
Theorem getCachedPage_expiry s n entry :
  storageFault s (OpGet [cacheKey n]) = false →
  storageFault s (OpRemove (cacheKey n)) = false →
  entries s !! cacheKey n = Some entry →
  (CACHE_TTL < now s - default 0 (timestamp entry))%Z →
  (getCachedPage n s = (Ok None, setEntries (delete (cacheKey n)) s)
   ∧ entries (setEntries (delete (cacheKey n)) s) !! cacheKey n = None
   ∧ getCachedPage n (setEntries (delete (cacheKey n)) s)
     = (Ok None, setEntries (delete (cacheKey n)) s))
  ∧ (∀ s0 m r s1,
       getCachedPage m s0 = (Ok r, s1) →
       r = None ∨ (r = entries s0 !! cacheKey m ∧ s1 = s0)).
Proof.
  intros Hget Hrem Hentry Hage. split.
  - by apply (getCachedPage_expired s n entry).
  - intros s0 m r s1 H.
    apply getCachedPage_all_or_nothing in H as [->|(e & -> & He & _ & ->)];
      [by left | by right].
Qed.

Lemma getCachedPage_expiry_witness :
  storageFault (cachedState 3600001) (OpGet [cacheKey 42]) = false
  ∧ storageFault (cachedState 3600001) (OpRemove (cacheKey 42)) = false
  ∧ entries (cachedState 3600001) !! cacheKey 42 = Some (sampleEntry 1699996399999)
  ∧ (CACHE_TTL < now (cachedState 3600001)
                 - default 0 (timestamp (sampleEntry 1699996399999)))%Z
  ∧ getCachedPage 42 (cachedState 3600001)
    = (Ok None, setEntries (delete (cacheKey 42)) (cachedState 3600001)).
Proof.
  assert (H1 : storageFault (cachedState 3600001) (OpGet [cacheKey 42]) = false)
    by reflexivity.
  assert (H2 : storageFault (cachedState 3600001) (OpRemove (cacheKey 42)) = false)
    by reflexivity.
  assert (H3 : entries (cachedState 3600001) !! cacheKey 42
               = Some (sampleEntry 1699996399999))
    by (vm_compute; reflexivity).
  assert (H4 : (CACHE_TTL < now (cachedState 3600001)
                 - default 0 (timestamp (sampleEntry 1699996399999)))%Z)
    by (vm_compute; reflexivity).
  split_and!; [exact H1 | exact H2 | exact H3 | exact H4 |].
  exact (proj1 (proj1 (getCachedPage_expiry (cachedState 3600001) 42
                         (sampleEntry 1699996399999) H1 H2 H3 H4))).
Defined.

(** An entry exactly one hour old is still served. *)
Example getCachedPage_at_ttl :
  (getCachedPage 42 (cachedState 3600000)).1 = Ok (Some (sampleEntry 1699996400000)).
Proof. vm_compute. reflexivity. Qed.

(** C6: after [cachePage] has written an entry for a problem number, a
    [getCachedPage] for that number at any time not more than the hour later
    resolves to an entry with the same page id and the same url. *)
Theorem cachePage_getCachedPage_roundtrip s n pid purl t :
  storageFault s (OpSet [cacheKey n]) = false →
  storageFault s (OpGet [cacheKey n]) = false →
  (t - now s ≤ CACHE_TTL)%Z →
  ∃ s1 entry,
    cachePage n pid purl s = (Ok (), s1)
    ∧ getCachedPage n (setNow t s1) = (Ok (Some entry), setNow t s1)
    ∧ pageId entry = pid ∧ url entry = purl.
Proof.
  intros Hset Hget Hage.
  exists (setEntries (insert (cacheKey n)
            {| pageId := pid; url := purl; timestamp := Some (now s) |}) s).
  eexists. split_and!.
  - js_step. by rewrite Hset.
  - js_step. rewrite Hget. js_step. rewrite lookup_insert_eq. js_step.
    cbn [timestamp default from_option]. change (Datatypes.id (now s)) with (now s).
    destruct (Z.ltb_spec CACHE_TTL (t - now s)%Z); [lia|]. reflexivity.
  - reflexivity.
  - reflexivity.
Qed.

Lemma cachePage_getCachedPage_roundtrip_witness :
  storageFault offlineState (OpSet [cacheKey 42]) = false
  ∧ storageFault offlineState (OpGet [cacheKey 42]) = false
  ∧ (1700003600000 - now offlineState ≤ CACHE_TTL)%Z
  ∧ ∃ s1 entry,
      cachePage 42 "abc" "https://www.notion.so/abc" offlineState = (Ok (), s1)
      ∧ getCachedPage 42 (setNow 1700003600000 s1)
        = (Ok (Some entry), setNow 1700003600000 s1)
      ∧ pageId entry = "abc" ∧ url entry = "https://www.notion.so/abc".
Proof.
  assert (H1 : storageFault offlineState (OpSet [cacheKey 42]) = false)
    by reflexivity.
  assert (H2 : storageFault offlineState (OpGet [cacheKey 42]) = false)
    by reflexivity.
  assert (H3 : (1700003600000 - now offlineState ≤ CACHE_TTL)%Z)
    by (vm_compute; discriminate).
  split_and!; [exact H1 | exact H2 | exact H3 |].
  exact (cachePage_getCachedPage_roundtrip offlineState 42 "abc"
           "https://www.notion.so/abc" 1700003600000 H1 H2 H3).
Defined.

(** Writing for one problem leaves the entry of another as it was. *)
Lemma cachePage_other s n m pid purl s1 :
  n ≠ m →
  cachePage n pid purl s = (Ok (), s1) →
  entries s1 !! cacheKey m = entries s !! cacheKey m.
Proof.
  intros Hne. js_step.
  destruct (storageFault s (OpSet [cacheKey n])); [done|].
  intros [= <-]. cbn [entries setEntries].
  apply lookup_insert_ne. intros H%cacheKey_inj. done.
Qed.

End CacheProperties.

(** ** The record writer *)

Section WriterProperties.
Import Chrome Popup PopupScenarios.

Local Ltac js_step :=
  cbv beta iota delta
    [sendToNotion fetch json bind ret throw tryCatch modify gets];
  cbn [remote requests logRequest fst snd].

Lemma findProperty_type props aliases type p :
  findProperty props aliases [type] = Some p → p ∈ props ∧ p.2 = type.
Proof.
  intros (pre & post & -> & _ & Hp)%findProperty_Some. split.
  - apply elem_of_app. right. by left.
  - unfold propertyMatches, JS.arrayIncludes in Hp.
    apply andb_true_iff in Hp as [_ Hp]. simpl in Hp.
    apply bool_decide_eq_true in Hp. by apply list_elem_of_singleton in Hp.
Qed.

Lemma firstTitle_Some props p :
  firstTitle props = Some p → p ∈ props ∧ p.2 = "title".
Proof.
  unfold firstTitle.
  destruct (list_find _ props) as [[i q]|] eqn:E; simpl; [|done].
  intros [= <-]. apply list_find_Some in E as (Hi & Hq & _).
  split; [by eapply list_elem_of_lookup_2 | done].
Qed.

(** Without a property of type title, [buildNotionProperties] throws. *)
Lemma buildNotionProperties_no_title data props :
  Forall (λ prop, prop.2 ≠ "title") props →
  buildNotionProperties data props = inl noTitleError.
Proof.
  intros Hall. unfold buildNotionProperties.
  destruct (findProperty props _ ["title"]) as [p|] eqn:E1.
  { apply findProperty_type in E1 as [Hin Ht].
    by eapply Forall_forall in Hall. }
  destruct (firstTitle props) as [p|] eqn:E2; [|done].
  apply firstTitle_Some in E2 as [Hin Ht].
  by eapply Forall_forall in Hall.
Qed.

(** With one, it returns the properties, the title among them. *)
Example buildNotionProperties_title :
  ∃ props,
    buildNotionProperties sampleData
      [("Status", "select"); ("Problem", "title"); ("No.", "number")] = inr props
    ∧ props !! "Problem" = Some (PTitle "1. Two Sum" "https://leetcode.cn/problems/two-sum")
    ∧ props !! "Status" = Some (PSelect "Solved")
    ∧ props !! "No." = None.
Proof. eexists. split_and!; [reflexivity | vm_compute; reflexivity ..]. Qed.

(** C8: when the schema fetched for a create holds no property of type
    title (the empty schema, or a database without [properties], in
    particular), [sendToNotion] throws the title-property error, and the
    only request it has sent is the one that fetched the schema: no page
    is created. *)
Theorem sendToNotion_no_title data st s status db :
  remote s (dbRequest st) = Response status (Some db) →
  ok (status, Some db) = true →
  Forall (λ prop, prop.2 ≠ "title") (default [] (properties db)) →
  ∃ s', sendToNotion data st s = (Throw noTitleError, s')
    ∧ requests s' = (requests s ++ [dbRequest st])%list
    ∧ entries s' = entries s.
Proof.
  intros Hremote Hok Hnone. unfold dbRequest in *.
  eexists. split_and!.
  - js_step. rewrite Hremote. js_step. rewrite Hok. js_step.
    rewrite (buildNotionProperties_no_title data _ Hnone). reflexivity.
  - reflexivity.
  - reflexivity.
Qed.

Lemma sendToNotion_no_title_witness :
  remote emptySchemaState (dbRequest sampleSettings)
    = Response 200 (Some emptySchemaBody)
  ∧ ok (200, Some emptySchemaBody) = true
  ∧ Forall (λ prop, prop.2 ≠ "title") (default [] (properties emptySchemaBody))
  ∧ ∃ s', sendToNotion sampleData sampleSettings emptySchemaState
          = (Throw noTitleError, s')
      ∧ requests s' = (requests emptySchemaState ++ [dbRequest sampleSettings])%list
      ∧ entries s' = entries emptySchemaState.
Proof.
  assert (H1 : remote emptySchemaState (dbRequest sampleSettings)
               = Response 200 (Some emptySchemaBody)) by reflexivity.
  assert (H2 : ok (200, Some emptySchemaBody) = true) by reflexivity.
  assert (H3 : Forall (λ prop : string * string, prop.2 ≠ "title")
                 (default [] (properties emptySchemaBody)))
    by (simpl; constructor).
  split_and!; [exact H1 | exact H2 | exact H3 |].
  exact (sendToNotion_no_title sampleData sampleSettings emptySchemaState 200
           emptySchemaBody H1 H2 H3).
Defined.

End WriterProperties.

(** ** Duplicate detection *)

Section DuplicateProperties.
Import Chrome Popup PopupScenarios.

Local Ltac js_step :=
  cbv beta iota delta
    [checkForDuplicate validateCacheInBackground checkPageExists
     findPageInNotion getCachedPage cachePage loadSettings
     showAlreadySavedBadge showNotionLinks
     storageGet storageSet storageRemove storageCall dateNow
     fetch json bind ret throw tryCatch modify gets];
  cbn [storageFault entries now remote requests settings problemNumber
       notionPageId notionPageUrl badgeHidden linksHidden background
       setEntries setNow logRequest setNotionPage setBadgeHidden
       setLinksHidden spawn fst snd negb andb orb].

(** *** Background verification *)

(** When the existence check cannot reach the network, the entry is
    removed all the same and the popup falls back to not found. *)
Lemma validateCacheInBackground_rejected s n pid st :
  remote s (GetPage pid (splice (notionToken st))) = Rejected →
  storageFault s (OpRemove (cacheKey n)) = false →
  ∃ s', validateCacheInBackground n pid st s = (Ok (), s')
    ∧ entries s' = delete (cacheKey n) (entries s)
    ∧ notionPageId s' = None ∧ badgeHidden s' = true ∧ linksHidden s' = true.
Proof.
  intros Hremote Hrem. eexists. split_and!.
  - js_step. rewrite Hremote. js_step. rewrite Hrem. reflexivity.
  - reflexivity.
  - reflexivity.
  - reflexivity.
  - reflexivity.
Qed.

(** A page the remote reports live keeps the entry and the popup as they
    are. *)
Lemma validateCacheInBackground_live s n pid st status body :
  remote s (GetPage pid (splice (notionToken st))) = Response status (Some body) →
  ok (status, Some body) = true →
  archived (self body) = false → in_trash (self body) = false →
  ∃ s', validateCacheInBackground n pid st s = (Ok (), s')
    ∧ entries s' = entries s ∧ notionPageId s' = notionPageId s
    ∧ badgeHidden s' = badgeHidden s.
Proof.
  intros Hremote Hok Harch Htrash. eexists. split_and!.
  - js_step. rewrite Hremote. js_step.
    destruct (Nat.eqb_spec status 404) as [->|_]; [done|].
    rewrite Hok. js_step. rewrite Harch, Htrash. reflexivity.
  - reflexivity.
  - reflexivity.
  - reflexivity.
Qed.

(** It never rejects, whatever the network and the store do. *)
Lemma validateCacheInBackground_total s n pid st :
  ∃ s', validateCacheInBackground n pid st s = (Ok (), s').
Proof.
  unfold validateCacheInBackground, tryCatch.
  destruct (bind _ _ s) as [[[]|e] s']; eauto.
Qed.

(** C1, on the code: problem 42 is cached and the network is down.  The
    duplicate check finds the entry and queues the verification; the
    verification, whose existence check is rejected, removes the entry,
    clears the page id and hides the indicator. *)
Theorem validateCacheInBackground_network_error_evicts :
  let s0 := cachedState 1000 in
  let s1 := (checkForDuplicate s0).2 in
  let s2 := (runTasks (background s1) s1).2 in
  (∀ r, remote s0 r = Rejected)
  ∧ (checkForDuplicate s0).1 = Ok ()
  ∧ notionPageId s1 = Some "abc"
  ∧ badgeHidden s1 = false
  ∧ background s1 = [(42%N, "abc", sampleSettings)]
  ∧ is_Some (entries s1 !! cacheKey 42)
  ∧ (runTasks (background s1) s1).1 = Ok ()
  ∧ requests s2 = [GetPage "abc" "secret_abc"]
  ∧ entries s2 !! cacheKey 42 = None
  ∧ notionPageId s2 = None
  ∧ badgeHidden s2 = true.
Proof.
  cbv zeta. split_and!; try (vm_compute; reflexivity).
  vm_compute. eauto.
Qed.

(** *** The duplicate check *)









Example checkForDuplicate_brokenStore :
  checkForDuplicate brokenStoreState = (Throw StorageError, brokenStoreState).
Proof. reflexivity. Qed.


Lemma offlineState_schema_fetch_fails : GuardedFailure offlineState 42.
Proof. by eapply SchemaFetchFails. Qed.


(** A failed write of the cache after the page was found hides the
    indicator too, but by then the page id is set. *)
Example checkForDuplicate_cache_write_fails :
  let s := (checkForDuplicate (setFaults (λ op, match op with OpSet _ => true | _ => false end)
                                 foundState)) in
  s.1 = Ok () ∧ badgeHidden s.2 = true ∧ notionPageId s.2 = Some "abc"
  ∧ entries s.2 !! cacheKey 42 = None.
Proof. cbv zeta. split_and!; vm_compute; reflexivity. Qed.

(** The scenario of the specification: problem 42, nothing cached, the
    query answers one live page abc; the check ends with the page found and
    an entry written under problem_42. *)
Example checkForDuplicate_found :
  let s := checkForDuplicate foundState in
  s.1 = Ok () ∧ badgeHidden s.2 = false ∧ notionPageId s.2 = Some "abc"
  ∧ entries s.2 !! "problem_42"
    = Some {| pageId := "abc"; url := "https://www.notion.so/abc";
              timestamp := Some 1700000000000%Z |}
  ∧ requests s.2
    = [GetDatabase "12345678123412341234123456789abc" "secret_abc";
       QueryDatabase "12345678123412341234123456789abc" "secret_abc" "Problem ID" 42].
Proof. cbv zeta. split_and!; vm_compute; reflexivity. Qed.

(** The other scenario: problem 42 is cached and the existence check
    answers 404; the entry is deleted and the check falls back to not
    found. *)
Example validateCacheInBackground_404 :
  let s := validateCacheInBackground 42 "abc" sampleSettings
             (setRemote (λ _, Response 404 None) (cachedState 1000)) in
  s.1 = Ok () ∧ entries s.2 !! "problem_42" = None
  ∧ badgeHidden s.2 = true ∧ notionPageId s.2 = None.
Proof. cbv zeta. split_and!; vm_compute; reflexivity. Qed.

End DuplicateProperties.

(** * Further properties *)

Section StringFacts.

Lemma string_app_nil_r (s : string) : s +:+ "" = s.
Proof. induction s as [|a s IH]; [done|]. unfold String.app in *. simpl. by rewrite IH. Qed.

Lemma string_app_assoc (a b c : string) : (a +:+ b) +:+ c = a +:+ (b +:+ c).
Proof. induction a as [|x a IH]; [done|]. unfold String.app in *. simpl. by rewrite IH. Qed.

Lemma string_app_length (a b : string) :
  String.length (a +:+ b) = (String.length a + String.length b)%nat.
Proof. induction a as [|x a IH]; [done|]. unfold String.app in *. simpl. by rewrite IH. Qed.

Lemma string_app_cons a (s t : string) : String a s +:+ t = String a (s +:+ t).
Proof. done. Qed.

Lemma allChars_app p (s t : string) :
  JS.allChars p (s +:+ t) = JS.allChars p s && JS.allChars p t.
Proof.
  induction s as [|a s IH]; [done|].
  rewrite string_app_cons. simpl. rewrite IH. by rewrite andb_assoc.
Qed.











Lemma numberFrom_app acc (s t : string) :
  JS.numberFrom acc (s +:+ t) = JS.numberFrom (JS.numberFrom acc s) t.
Proof.
  revert acc. induction s as [|a s IH]; intros acc; [done|].
  rewrite string_app_cons. simpl. by rewrite IH.
Qed.

Lemma pretty_N_char_digit x :
  (x < 10)%N →
  JS.isDigit (pretty_N_char x) = true ∧ JS.digitValue (pretty_N_char x) = x.
Proof.
  intros H.
  assert (x = 0 ∨ x = 1 ∨ x = 2 ∨ x = 3 ∨ x = 4 ∨ x = 5 ∨ x = 6 ∨ x = 7
          ∨ x = 8 ∨ x = 9)%N as Hx by lia.
  destruct_or!; subst; done.
Qed.

(** The digits [pretty_N_go] puts in front of a string: all of them
    decimal digits, reading back as the number printed. *)
Lemma pretty_N_go_digits x s :
  ∃ d, pretty_N_go x s = d +:+ s
    ∧ JS.allChars JS.isDigit d = true
    ∧ (∀ acc, JS.numberFrom acc d = acc * 10 ^ N.of_nat (String.length d) + x)%N
    ∧ ((0 < x)%N → d ≠ "").
Proof.
  revert s. induction (N.lt_wf_0 x) as [x _ IH]; intros s.
  destruct (decide (x = 0)%N) as [->|Hx].
  { exists "". rewrite pretty_N_go_0. split_and!; [done | done | | lia].
    intros acc. simpl. lia. }
  rewrite pretty_N_go_step by lia.
  destruct (IH (x `div` 10)%N ltac:(apply N.div_lt; lia)
              (String (pretty_N_char (x `mod` 10)) s)) as (d & Hd & Hall & Hnum & _).
  destruct (pretty_N_char_digit (x `mod` 10)%N ltac:(apply N.mod_lt; lia))
    as [Hdig Hval].
  exists (d +:+ String (pretty_N_char (x `mod` 10)) "").
  split_and!.
  - rewrite Hd, string_app_assoc. done.
  - rewrite allChars_app, Hall. simpl. by rewrite Hdig.
  - intros acc. rewrite numberFrom_app, Hnum. simpl. rewrite Hval.
    rewrite string_app_length. simpl.
    rewrite Nat2N.inj_add. simpl (N.of_nat 1).
    rewrite N.pow_add_r, N.pow_1_r.
    pose proof (N.div_mod x 10 ltac:(lia)). lia.
  - intros _ H. destruct d; discriminate H.
Qed.

Lemma pretty_N_digits (x : N) :
  JS.isDigits (pretty x) = true ∧ JS.Number (pretty x) = x.
Proof.
  unfold pretty, pretty_N. destruct (decide (x = 0)%N) as [->|Hx]; [done|].
  destruct (pretty_N_go_digits x "") as (d & Hd & Hall & Hnum & Hne).
  rewrite Hd, string_app_nil_r. split.
  - unfold JS.isDigits. destruct d; [by destruct Hne; [lia|]|done].
  - unfold JS.Number. rewrite Hnum. lia.
Qed.






End StringFacts.

Section StopwatchProperties.
Import Stopwatch.

Lemma isDigits_allChars s : JS.isDigits s = true → JS.allChars JS.isDigit s = true.
Proof. by destruct s. Qed.




Lemma digits_truthy s : JS.isDigits s = true → JS.truthy s = true.
Proof. by destruct s. Qed.







End StopwatchProperties.

Section StopwatchStateProperties.
Import Stopwatch.
Local Opaque formatClock Timer.parseTimeToMs.

Lemma timer_saveTimerState q : timer (saveTimerState q) = timer q.
Proof.
  unfold saveTimerState.
  destruct (activeTab q); [destruct (storageRejects q)|]; reflexivity.
Qed.

Lemma clock_saveTimerState q : clock (saveTimerState q) = clock q.
Proof.
  unfold saveTimerState.
  destruct (activeTab q); [destruct (storageRejects q)|]; reflexivity.
Qed.


Lemma timer_startTimer q :
  isRunning (timer q) = false →
  timer (startTimer q)
  = {| startTime := Some (clock q - elapsedTime (timer q))%Z;
       elapsedTime := elapsedTime (timer q); interval := true; isRunning := true |}.
Proof.
  intros H. unfold startTimer. rewrite H.
  cbn [timer updateTimerButtons setControls]. by rewrite timer_saveTimerState.
Qed.

Lemma clock_startTimer q : clock (startTimer q) = clock q.
Proof.
  unfold startTimer. destruct (isRunning (timer q)); [done|].
  cbn [clock updateTimerButtons setControls]. by rewrite clock_saveTimerState.
Qed.

Lemma timer_pauseTimer q :
  isRunning (timer q) = true →
  timer (pauseTimer q)
  = {| startTime := startTime (timer q);
       elapsedTime := (clock q - default 0 (startTime (timer q)))%Z;
       interval := false; isRunning := false |}.
Proof.
  intros H. unfold pauseTimer. rewrite H.
  cbn [negb timer updateTimerButtons setControls]. by rewrite timer_saveTimerState.
Qed.

(** Two runs of the stopwatch add up: from a stopped timer, starting at
    [t0], pausing at [t1], starting again at [t2] and pausing at [t3]
    leaves the time elapsed before plus the two running spans; the time
    between the pause and the second start is not counted. *)
Theorem pauseTimer_accumulates p t0 t1 t2 t3 :
  isRunning (timer p) = false →
  let p1 := pauseTimer (setClock t1 (startTimer (setClock t0 p))) in
  let p2 := pauseTimer (setClock t3 (startTimer (setClock t2 p1))) in
  elapsedTime (timer p1) = (elapsedTime (timer p) + (t1 - t0))%Z
  ∧ elapsedTime (timer p2) = (elapsedTime (timer p) + (t1 - t0) + (t3 - t2))%Z
  ∧ isRunning (timer p2) = false ∧ interval (timer p2) = false.
Proof.
  intros Hstop p1 p2.
  assert (H1 : timer p1
               = {| startTime := Some (t0 - elapsedTime (timer p))%Z;
                    elapsedTime := (t1 - (t0 - elapsedTime (timer p)))%Z;
                    interval := false; isRunning := false |}).
  { unfold p1. rewrite timer_pauseTimer; cbn [timer clock setClock];
      rewrite timer_startTimer by exact Hstop; reflexivity. }
  assert (H2 : timer p2
               = {| startTime := Some (t2 - elapsedTime (timer p1))%Z;
                    elapsedTime := (t3 - (t2 - elapsedTime (timer p1)))%Z;
                    interval := false; isRunning := false |}).
  { unfold p2. rewrite timer_pauseTimer; cbn [timer clock setClock];
      rewrite timer_startTimer by (cbn [timer setClock]; by rewrite H1); reflexivity. }
  rewrite H2, H1. cbn [elapsedTime isRunning interval]. split_and!; [lia | lia | done | done].
Qed.

Lemma pauseTimer_accumulates_witness :
  isRunning (timer StopwatchScenarios.stoppedPopup) = false
  ∧ (let p1 := pauseTimer (setClock 1060 (startTimer
                 (setClock 1000 StopwatchScenarios.stoppedPopup))) in
     let p2 := pauseTimer (setClock 5030 (startTimer (setClock 5000 p1))) in
     elapsedTime (timer p1)
     = (elapsedTime (timer StopwatchScenarios.stoppedPopup) + (1060 - 1000))%Z
     ∧ elapsedTime (timer p2)
       = (elapsedTime (timer StopwatchScenarios.stoppedPopup)
          + (1060 - 1000) + (5030 - 5000))%Z
     ∧ isRunning (timer p2) = false ∧ interval (timer p2) = false).
Proof.
  assert (H : isRunning (timer StopwatchScenarios.stoppedPopup) = false)
    by reflexivity.
  exact (conj H (pauseTimer_accumulates StopwatchScenarios.stoppedPopup
                   1000 1060 5000 5030 H)).
Defined.


(** The interval ticks exactly while the timer runs, and a running timer
    has a start time: every timer function keeps it so. *)
Lemma timer_consistent p :
  consistent (timer p) →
  consistent (timer (startTimer p))
  ∧ consistent (timer (pauseTimer p))
  ∧ consistent (timer (resetTimer p))
  ∧ consistent (timer (updateTimer p))
  ∧ consistent (timer (applyManualTimeInput p))
  ∧ (∀ p', loadTimerState p = Some p' → consistent (timer p')).
Proof.
  intros Hp. pose proof Hp as [Hint Hstart].
  assert (Hstarted : ∀ q, consistent (timer (startTimer q)) ∨ startTimer q = q).
  { intros q. destruct (isRunning (timer q)) eqn:E.
    - right. unfold startTimer. by rewrite E.
    - left. rewrite timer_startTimer by done. split; cbn; eauto. }
  split_and!.
  - by destruct (Hstarted p) as [H| ->].
  - destruct (isRunning (timer p)) eqn:E.
    + rewrite timer_pauseTimer by done. split; cbn; [done | discriminate].
    + unfold pauseTimer. rewrite E. exact Hp.
  - unfold resetTimer. cbn [timer updateTimerButtons setControls].
    rewrite timer_saveTimerState.
    cbn [timer updateTimerDisplay setControls setTimer].
    split; cbn; [done | discriminate].
  - unfold updateTimer. cbn [timer updateTimerDisplay setControls setTimer].
    split; cbn; [done|]. exact Hstart.
  - unfold applyManualTimeInput.
    destruct (Timer.parseTimeToMs _) as [ms|].
    + rewrite timer_saveTimerState.
      cbn [timer updateTimerButtons updateTimerDisplay setControls setTimer].
      split; cbn; [done|]. intros ->. eauto.
    + exact Hp.
  - intros p'. unfold loadTimerState.
    destruct (timerState p) as [state|]; [|by intros [= <-]].
    destruct (activeTab p) as [tab|]; [|done].
    destruct (match tab with Some (Some u) => _ | _ => _ end);
      [|by intros [= <-]].
    intros [= <-]. cbn [timer updateTimerButtons setControls].
    set (q := setTimer _ p).
    assert (Hq : consistent (timer q)) by (split; cbn; [done | exact Hstart]).
    destruct (savedIsRunning state); [|exact Hq].
    by destruct (Hstarted q) as [H| ->].
Qed.

Lemma timerState_pauseTimer p u :
  isRunning (timer p) = true →
  activeTab p = Some (Some u) → storageRejects p = false →
  timerState (pauseTimer p)
  = Some {| savedElapsedTime := (clock p - default 0 (startTime (timer p)))%Z;
            savedIsRunning := false;
            savedStartTime := startTime (timer p);
            savedUrl := activeTabUrl (Some u) |}.
Proof.
  intros Hrun Htab Hst. unfold pauseTimer. rewrite Hrun.
  cbn [negb timerState updateTimerButtons setControls]. unfold saveTimerState.
  cbn [activeTab storageRejects setTimer]. rewrite Htab, Hst. reflexivity.
Qed.

(** A timer paused while a tab with a url is active is stored, and a popup
    opened later finds it again: on a tab with the same url the elapsed
    time comes back, paused, and is shown on the clock; on a tab with
    another url the stored timer is ignored. *)
Theorem pauseTimer_then_loadTimerState p q u v :
  isRunning (timer p) = true →
  activeTab p = Some (Some (Some u)) → JS.truthy u = true →
  storageRejects p = false →
  timerState q = timerState (pauseTimer p) →
  activeTab q = Some (Some (Some v)) →
  ∃ q', loadTimerState q = Some q'
    ∧ (v = u →
       elapsedTime (timer q') = elapsedTime (timer (pauseTimer p))
       ∧ isRunning (timer q') = isRunning (timer q)
       ∧ timerDisplay (controls q')
         = formatClock (elapsedTime (timer (pauseTimer p))))
    ∧ (v ≠ u → timer q' = timer q).
Proof.
  intros Hrun Htab Hu Hst Hq Htabq.
  rewrite (timerState_pauseTimer p (Some u) Hrun Htab Hst) in Hq.
  rewrite timer_pauseTimer by done. cbn [elapsedTime].
  unfold loadTimerState. rewrite Hq, Htabq. cbn [savedUrl activeTabUrl].
  rewrite Hu. cbn [savedIsRunning savedElapsedTime].
  case_bool_decide as E; eexists; (split; [reflexivity|]); split; intros Hv;
    try congruence; first [reflexivity | split_and!; reflexivity].
Qed.

Lemma pauseTimer_then_loadTimerState_witness :
  isRunning (timer StopwatchScenarios.runningPopup) = true
  ∧ activeTab StopwatchScenarios.runningPopup
    = Some (Some (Some "https://leetcode.com/problems/two-sum/"))
  ∧ JS.truthy "https://leetcode.com/problems/two-sum/" = true
  ∧ storageRejects StopwatchScenarios.runningPopup = false
  ∧ timerState StopwatchScenarios.reopenedPopup
    = timerState (pauseTimer StopwatchScenarios.runningPopup)
  ∧ activeTab StopwatchScenarios.reopenedPopup
    = Some (Some (Some "https://leetcode.com/problems/two-sum/"))
  ∧ ∃ q', loadTimerState StopwatchScenarios.reopenedPopup = Some q'
      ∧ ("https://leetcode.com/problems/two-sum/"
         = "https://leetcode.com/problems/two-sum/" →
         elapsedTime (timer q')
         = elapsedTime (timer (pauseTimer StopwatchScenarios.runningPopup))
         ∧ isRunning (timer q') = isRunning (timer StopwatchScenarios.reopenedPopup)
         ∧ timerDisplay (controls q')
           = formatClock
               (elapsedTime (timer (pauseTimer StopwatchScenarios.runningPopup))))
      ∧ ("https://leetcode.com/problems/two-sum/"
         ≠ "https://leetcode.com/problems/two-sum/" →
         timer q' = timer StopwatchScenarios.reopenedPopup).
Proof.
  assert (H1 : isRunning (timer StopwatchScenarios.runningPopup) = true)
    by reflexivity.
  assert (H2 : activeTab StopwatchScenarios.runningPopup
               = Some (Some (Some "https://leetcode.com/problems/two-sum/")))
    by reflexivity.
  assert (H3 : JS.truthy "https://leetcode.com/problems/two-sum/" = true)
    by reflexivity.
  assert (H4 : storageRejects StopwatchScenarios.runningPopup = false)
    by reflexivity.
  assert (H5 : timerState StopwatchScenarios.reopenedPopup
               = timerState (pauseTimer StopwatchScenarios.runningPopup))
    by reflexivity.
  assert (H6 : activeTab StopwatchScenarios.reopenedPopup
               = Some (Some (Some "https://leetcode.com/problems/two-sum/")))
    by reflexivity.
  exact (conj H1 (conj H2 (conj H3 (conj H4 (conj H5 (conj H6
           (pauseTimer_then_loadTimerState _ _ _ _ H1 H2 H3 H4 H5 H6))))))).
Defined.

End StopwatchStateProperties.

Section PageFieldProperties.
Import Extractor PageFields.




Lemma takeWhile_app p (d : string) c rest :
  JS.allChars p d = true → p c = false →
  JS.takeWhile p (d +:+ String c rest) = d.
Proof.
  intros Hd Hc. induction d as [|a d IH]; simpl.
  - change ("" +:+ String c rest) with (String c rest). simpl. by rewrite Hc.
  - simpl in Hd. apply andb_true_iff in Hd as [Ha Hd].
    rewrite Ha. by rewrite IH.
Qed.

Lemma drop_app_length (d rest : string) :
  JS.drop (String.length d) (d +:+ rest) = rest.
Proof.
  induction d as [|a d IH]; [by destruct rest|]. exact IH.
Qed.

Lemma allChars_takeWhile p s : JS.allChars p (JS.takeWhile p s) = true.
Proof.
  induction s as [|a s IH]; [done|]. simpl.
  destruct (p a) eqn:E; [|done]. simpl. by rewrite E.
Qed.

(** A text that starts with the decimal digits of a number and a full stop
    starts with that number. *)
Lemma leadingNumber_pretty (n : N) rest :
  leadingNumber (pretty n +:+ "." +:+ rest) = Some n.
Proof.
  destruct (pretty_N_digits n) as [Hd Hn]. unfold leadingNumber.
  change (pretty n +:+ "." +:+ rest) with (pretty n +:+ String "." rest).
  rewrite (takeWhile_app JS.isDigit (pretty n) "."%char rest
             (isDigits_allChars _ Hd) eq_refl).
  rewrite drop_app_length, (digits_truthy _ Hd). cbn. rewrite Hn. by destruct rest.
Qed.



Local Ltac in_list :=
  repeat first [apply list_elem_of_here | apply list_elem_of_further].

Lemma classify_values text d :
  classify text = Some d → d ∈ ["Easy"; "Medium"; "Hard"].
Proof.
  unfold classify.
  repeat (destruct (_ || _); [intros [= <-]; in_list|]). done.
Qed.

Lemma difficultyFromSelectors_values doc selectors d :
  difficultyFromSelectors doc selectors = Some d → d ∈ ["Easy"; "Medium"; "Hard"].
Proof.
  induction selectors as [|sel rest IH]; simpl; [done|].
  destruct (querySelector doc sel ≫= classify) as [d'|] eqn:E; [|done].
  intros [= <-]. destruct (querySelector doc sel) as [text|]; [|done].
  by eapply classify_values.
Qed.

Lemma difficultyFromScripts_none ss :
  Forall (λ script, JS.includes script "difficulty" = false) ss →
  difficultyFromScripts ss = None.
Proof.
  induction 1 as [|script ss Hs _ IH]; simpl; [done|]. by rewrite Hs.
Qed.

(** When an element decides, or no script mentions the word, the difficulty
    is one of Easy, Medium, Hard and Unknown. *)
Theorem extractDifficulty_values pg :
  is_Some (difficultyFromSelectors (document pg) difficultySelectors)
  ∨ Forall (λ script, JS.includes script "difficulty" = false)
      (scripts (document pg)) →
  extractDifficulty pg ∈ ["Easy"; "Medium"; "Hard"; "Unknown"].
Proof.
  intros H. unfold extractDifficulty.
  destruct (difficultyFromSelectors _ _) as [d|] eqn:E.
  - apply difficultyFromSelectors_values in E.
    repeat (apply elem_of_cons in E as [->|E]; [in_list|]).
    by apply elem_of_nil in E.
  - destruct H as [[? [=]]|H]. rewrite (difficultyFromScripts_none _ H). in_list.
Qed.

Lemma extractDifficulty_values_witness :
  (is_Some (difficultyFromSelectors (document PageScenarios.twoSumPage)
              difficultySelectors)
   ∨ Forall (λ script, JS.includes script "difficulty" = false)
       (scripts (document PageScenarios.twoSumPage)))
  ∧ extractDifficulty PageScenarios.twoSumPage
    ∈ ["Easy"; "Medium"; "Hard"; "Unknown"].
Proof.
  assert (H : is_Some (difficultyFromSelectors
                         (document PageScenarios.twoSumPage) difficultySelectors)
              ∨ Forall (λ script, JS.includes script "difficulty" = false)
                  (scripts (document PageScenarios.twoSumPage))).
  { right. repeat constructor. }
  exact (conj H (extractDifficulty_values PageScenarios.twoSumPage H)).
Defined.





Lemma matchRate_shape s r :
  matchRate s = Some r →
  ∃ whole fraction,
    JS.isDigits whole = true ∧ JS.allChars JS.isDigit fraction = true
    ∧ (r = whole +:+ "%" ∨ r = whole +:+ "." +:+ fraction +:+ "%").
Proof.
  unfold matchRate.
  destruct (JS.truthy (JS.takeWhile JS.isDigit s)) eqn:Ht; simpl; [|done].
  assert (Hw : JS.isDigits (JS.takeWhile JS.isDigit s) = true).
  { unfold JS.isDigits. destruct (JS.takeWhile JS.isDigit s) eqn:E; [done|].
    rewrite <- E. apply allChars_takeWhile. }
  destruct (JS.startsWith _ "."). 
  - destruct (JS.startsWith _ "%"); [|done]. intros [= <-].
    eexists _, _. split_and!; [done | apply allChars_takeWhile | by right].
  - destruct (JS.startsWith _ "%"); [|done]. intros [= <-].
    exists (JS.takeWhile JS.isDigit s), "". split_and!; [done | done | by left].
Qed.

Lemma matchAfter_rate same word s r :
  matchAfter same word s = Some r → ∃ s', matchRate s' = Some r.
Proof.
  induction s as [|a s IH]; simpl.
  - destruct (same _ _); [|done].
    destruct (matchRate _) eqn:E; [|done]. intros [= <-]. eauto.
  - destruct (same _ _).
    + destruct (matchRate _) eqn:E; [intros [= <-]; eauto | apply IH].
    + apply IH.
Qed.

(** An acceptance rate, when one is found, is a run of digits, possibly a
    full stop and more digits, and a percent sign. *)
Theorem extractAcceptance_shape pg r :
  extractAcceptance pg = Some r →
  ∃ whole fraction,
    JS.isDigits whole = true ∧ JS.allChars JS.isDigit fraction = true
    ∧ (r = whole +:+ "%" ∨ r = whole +:+ "." +:+ fraction +:+ "%").
Proof.
  unfold extractAcceptance.
  destruct (matchAfter _ "Acceptance" _) as [r'|] eqn:E.
  - intros [= <-]. apply matchAfter_rate in E as [s' Hs'].
    by eapply matchRate_shape.
  - intros [s' Hs']%matchAfter_rate. by eapply matchRate_shape.
Qed.

Lemma extractAcceptance_shape_witness :
  extractAcceptance PageScenarios.twoSumPage = Some "53.2%"
  ∧ ∃ whole fraction,
      JS.isDigits whole = true ∧ JS.allChars JS.isDigit fraction = true
      ∧ ("53.2%" = whole +:+ "%" ∨ "53.2%" = whole +:+ "." +:+ fraction +:+ "%").
Proof.
  assert (H : extractAcceptance PageScenarios.twoSumPage = Some "53.2%")
    by (vm_compute; reflexivity).
  exact (conj H (extractAcceptance_shape PageScenarios.twoSumPage "53.2%" H)).
Defined.

End PageFieldProperties.

Section StoredCodeProperties.
Import Extractor StoredCode.

Lemma weight_positive v : (1 ≤ weight v)%nat.
Proof. destruct v; simpl; lia. Qed.

Lemma weight_values current vs :
  values current = Some vs → weight current = S (weights vs).
Proof.
  destruct current as [|b|t tr|s|items|fields]; simpl; try done;
    intros E; injection E as E; subst vs; f_equal.
  induction fields as [|[k x] fields IH]; simpl; [done|]. by rewrite IH.
Qed.

Lemma weights_app q1 q2 : weights (q1 ++ q2) = (weights q1 + weights q2)%nat.
Proof. induction q1 as [|v q1 IH]; simpl; [done|]. rewrite IH. lia. Qed.

Lemma scan_weights vs queue queue' :
  scan vs queue = inr queue' → (weights queue' ≤ weights queue + weights vs)%nat.
Proof.
  revert queue. induction vs as [|v vs IH]; intros queue; simpl.
  { intros [= <-]. lia. }
  destruct v; try (intros H%IH; simpl in *; lia).
  - destruct (looksLikeCode s); [done|]. intros H%IH. simpl. lia.
  - intros H%IH. rewrite weights_app in H. simpl in *. lia.
  - intros H%IH. rewrite weights_app in H. simpl in *. lia.
Qed.

Lemma scan_sound vs queue c : scan vs queue = inl c → looksLikeCode c = true.
Proof.
  revert queue. induction vs as [|v vs IH]; intros queue; simpl; [done|].
  destruct v; try apply IH.
  destruct (looksLikeCode s) eqn:E; [by intros [= <-] | apply IH].
Qed.


(** Once the rounds cover the values in the queue, more rounds change
    nothing. *)
Lemma search_fuel f1 f2 queue language :
  (weights queue ≤ f1)%nat → (weights queue ≤ f2)%nat →
  search f1 queue language = search f2 queue language.
Proof.
  revert f2 queue. induction f1 as [|f1 IH]; intros f2 queue H1 H2.
  { destruct queue as [|v queue]; [by destruct f2|].
    simpl in H1. pose proof (weight_positive v). lia. }
  destruct queue as [|current rest]; [by destruct f2|].
  destruct f2 as [|f2].
  { simpl in H2. pose proof (weight_positive current). lia. }
  simpl in H1, H2. simpl.
  destruct (values current) as [vs|] eqn:Hv.
  - destruct (match property "code" current with
              | Some (JString c) => _ | _ => None end); [done|].
    destruct (scan vs rest) as [c|queue'] eqn:Hs; [done|].
    apply scan_weights in Hs. rewrite (weight_values _ _ Hv) in H1, H2.
    apply IH; lia.
  - pose proof (weight_positive current). apply IH; lia.
Qed.

Lemma search_sound fuel queue language c :
  search fuel queue language = Some c → looksLikeCode c = true.
Proof.
  revert queue. induction fuel as [|fuel IH]; intros queue; [done|].
  destruct queue as [|current rest]; [done|]. simpl.
  destruct (values current) as [vs|]; [|apply IH].
  destruct (property "code" current) as [[|b|t tr|code|items|fields]|];
    try (destruct (scan vs rest) eqn:Hs;
         [intros [= <-]; by eapply scan_sound | apply IH]).
  destruct (isMatchingLanguage current language && looksLikeCode code) eqn:E.
  - intros [= <-]. by apply andb_true_iff in E as [_ ?].
  - destruct (scan vs rest) eqn:Hs;
      [intros [= <-]; by eapply scan_sound | apply IH].
Qed.

Lemma looksLikeCode_long c :
  looksLikeCode c = true → (10 ≤ String.length (JS.trim c))%nat.
Proof.
  unfold looksLikeCode. destruct (negb _); [done|].
  destruct (Nat.ltb_spec (String.length (JS.trim c)) 10); [done|]. lia.
Qed.

(** The rounds given to [findCodeInObject] are enough: with more rounds the
    search returns the same; and a code it returns looks like code, so has
    at least ten characters once trimmed. *)
Theorem findCodeInObject_sound obj language :
  (∀ fuel, (weight obj ≤ fuel)%nat →
     search fuel [obj] language = findCodeInObject obj language)
  ∧ ∀ c, findCodeInObject obj language = Some c →
      looksLikeCode c = true ∧ (10 ≤ String.length (JS.trim c))%nat.
Proof.
  split.
  - intros fuel H. unfold findCodeInObject. apply search_fuel; simpl; lia.
  - intros c H%search_sound. split; [done | by apply looksLikeCode_long].
Qed.



Lemma searchStorage_sound parse items lang slug c :
  searchStorage parse items lang slug = Some c → looksLikeCode c = true.
Proof.
  induction items as [|[key raw] items IH]; simpl; [done|].
  destruct (negb (JS.truthy key)); [apply IH|].
  destruct (_ && _); [apply IH|].
  destruct (negb (JS.truthy raw)); [apply IH|].
  destruct (tryParseJson parse raw) as [parsed|]; [|apply IH].
  destruct (jsTruthy parsed); [|apply IH].
  destruct (findCodeInObject parsed lang) as [c'|] eqn:E; [|apply IH].
  destruct (JS.truthy c'); [|apply IH].
  intros [= <-]. by eapply search_sound.
Qed.

(** Whatever the storage holds and however the browser parses it, a code
    [extractCode] returns is either the text of the editor or a stored
    string that looks like code; it is never empty, and the storage is
    only read when the editor gives nothing. *)
Theorem extractCode_sound parse src pg language c :
  extractCode parse src pg language = Some c →
  c ≠ ""
  ∧ (extractCodeFromDom (editorRoot src) = Some c
     ∨ (extractCodeFromDom (editorRoot src) = None ∧ looksLikeCode c = true)).
Proof.
  unfold extractCode.
  destruct (extractCodeFromDom (editorRoot src)) as [d|] eqn:Hdom.
  - intros [= <-]. split; [|by left].
    unfold extractCodeFromDom in Hdom. destruct (editorRoot src); [|done].
    destruct (JS.truthy _) eqn:Ht; [|done]. injection Hdom as <-.
    intros E. by rewrite E in Ht.
  - destruct (extractCodeFromStorage _ _ _ _) as [c'|] eqn:Hst; [|done].
    destruct (JS.truthy c') eqn:Ht; [|done]. intros [= <-]. split.
    + intros ->. done.
    + right. split; [done|]. unfold extractCodeFromStorage in Hst.
      destruct (searchStorage parse (localStorage src) _ _) eqn:E1.
      * injection Hst as ->. by eapply searchStorage_sound.
      * by eapply searchStorage_sound.
Qed.

Lemma extractCode_sound_witness :
  extractCode (λ _, None) PageScenarios.editorSources PageScenarios.twoSumPage
    "python" = Some ExtractorScenarios.exampleText
  ∧ ExtractorScenarios.exampleText ≠ ""
  ∧ (extractCodeFromDom (editorRoot PageScenarios.editorSources)
     = Some ExtractorScenarios.exampleText
     ∨ (extractCodeFromDom (editorRoot PageScenarios.editorSources) = None
        ∧ looksLikeCode ExtractorScenarios.exampleText = true)).
Proof.
  assert (H : extractCode (λ _, None) PageScenarios.editorSources
                PageScenarios.twoSumPage "python"
              = Some ExtractorScenarios.exampleText) by (vm_compute; reflexivity).
  exact (conj H (extractCode_sound _ _ _ _ _ H)).
Defined.

End StoredCodeProperties.

Section WriterExtra.
Import Chrome Popup PopupScenarios WriterScenarios.






Lemma wellTyped_insert schema props name type v :
  wellTyped schema props →
  (name, type) ∈ schema → kindOf v = Some type →
  wellTyped schema (<[name := v]> props).
Proof.
  intros Hwt Hin Hk k w. rewrite lookup_insert. case_decide as E.
  - intros [= <-]. subst k. eauto.
  - apply Hwt.
Qed.

Lemma buildPropertyValue_kind type v :
  type ∈ ["select"; "url"; "rich_text"; "date"; "checkbox"] →
  kindOf (buildPropertyValue type v) = Some type.
Proof.
  intros H. repeat (apply elem_of_cons in H as [->|H]; [reflexivity|]).
  by apply elem_of_nil in H.
Qed.

Lemma addFields_wellTyped schema fields props :
  Forall (λ f, ∃ t, types f = [t]
                 ∧ t ∈ ["select"; "url"; "rich_text"; "date"; "checkbox"]) fields →
  wellTyped schema props →
  wellTyped schema (addFields schema fields props).
Proof.
  intros Hf. revert props. induction Hf as [|f fields (t & Ht & Hknown) _ IH];
    intros props Hwt; simpl; [done|].
  apply IH. destruct (findProperty schema (aliases f) (types f)) as [p|] eqn:E; [|done].
  rewrite Ht in E. apply findProperty_type in E as [Hin Hty].
  destruct (_ || _); [|done].
  destruct p as [name ty]; simpl in *; subst ty.
  eapply wellTyped_insert; [done | done |]. by apply buildPropertyValue_kind.
Qed.

Lemma fieldConfigs_types data :
  Forall (λ f, ∃ t, types f = [t]
                 ∧ t ∈ ["select"; "url"; "rich_text"; "date"; "checkbox"])
    (fieldConfigs data).
Proof.
  unfold fieldConfigs.
  repeat (apply Forall_cons; split;
          [eexists; split; [reflexivity|]; cbn;
           repeat first [apply list_elem_of_here | apply list_elem_of_further] |]).
  apply Forall_nil_2.
Qed.

(** The payload [buildNotionProperties] returns only names properties of
    the schema, each with a value of the type the schema declares. *)
Theorem buildNotionProperties_wellTyped data schema props :
  buildNotionProperties data schema = inr props → wellTyped schema props.
Proof.
  unfold buildNotionProperties.
  set (title := match findProperty schema _ ["title"] with
                | Some p => Some p | None => firstTitle schema end).
  assert (Htitle : ∀ p, title = Some p → (p.1, "title") ∈ schema).
  { intros [tn tt]. unfold title.
    destruct (findProperty schema _ ["title"]) as [q|] eqn:E.
    - intros [= ->]. apply findProperty_type in E as [? ?].
      cbn [fst snd] in *. by subst.
    - intros [? ?]%firstTitle_Some. cbn [fst snd] in *. by subst. }
  destruct title as [tp|]; [|done]. specialize (Htitle tp eq_refl).
  set (p0 := ({[ tp.1 := PTitle (problemName data) (dataUrl data) ]}
               : gmap string PropertyValue)).
  assert (H0 : wellTyped schema p0).
  { intros k v. unfold p0. rewrite lookup_singleton. case_decide; [|done].
    intros [= <-]. subst. eauto. }
  clearbody p0.
  set (p1 := match findProperty schema numberAliases ["number"] with
             | Some numberProp => _ | None => _ end).
  assert (H1 : wellTyped schema p1).
  { unfold p1. destruct (findProperty schema numberAliases _) as [[nn nt]|] eqn:E; [|done].
    destruct (truthyNumber _); [|done].
    apply findProperty_type in E as [? ?]. cbn [fst snd] in *. subst.
    by eapply wellTyped_insert. }
  clearbody p1.
  assert (H2 : wellTyped schema (addFields schema (fieldConfigs data) p1))
    by (apply addFields_wellTyped; [apply fieldConfigs_types | done]).
  set (p2 := addFields schema (fieldConfigs data) p1) in *. clearbody p2.
  destruct (findProperty schema _ ["multi_select"]) as [[gn gt]|] eqn:E;
    [|by intros [= <-]].
  destruct (tags data) as [ts|]; [|by intros [= <-]].
  destruct (0 <? length ts)%nat; [|by intros [= <-]].
  intros [= <-].
  apply findProperty_type in E as [? ?]. cbn [fst snd] in *. subst.
  by eapply wellTyped_insert.
Qed.

Lemma buildNotionProperties_wellTyped_witness :
  ∃ props, buildNotionProperties codeData sampleSchema = inr props
    ∧ wellTyped sampleSchema props.
Proof.
  destruct (buildNotionProperties codeData sampleSchema) as [e|props] eqn:E.
  - vm_compute in E. discriminate E.
  - exists props. split; [reflexivity|].
    exact (buildNotionProperties_wellTyped codeData sampleSchema props E).
Defined.

Lemma NoDup_fst_unique (l : list (string * string)) x y1 y2 :
  NoDup l.*1 → (x, y1) ∈ l → (x, y2) ∈ l → y1 = y2.
Proof.
  induction l as [|[a b] l IH]; csimpl; intros Hnd H1 H2.
  { by apply elem_of_nil in H1. }
  apply NoDup_cons in Hnd as [Hnotin Hnd].
  assert (Hfst : ∀ y, (x, y) ∈ l → x ∈ l.*1).
  { intros y Hy. apply list_elem_of_fmap. by exists (x, y). }
  apply elem_of_cons in H1 as [E1|H1]; apply elem_of_cons in H2 as [E2|H2].
  - congruence.
  - injection E1 as -> ->. destruct Hnotin. by eapply Hfst.
  - injection E2 as -> ->. destruct Hnotin. by eapply Hfst.
  - by apply IH.
Qed.

Lemma addFields_keeps schema fields props name v :
  NoDup schema.*1 → (name, "title") ∈ schema →
  Forall (λ f, ∃ t, types f = [t]
                 ∧ t ∈ ["select"; "url"; "rich_text"; "date"; "checkbox"]) fields →
  props !! name = Some v →
  addFields schema fields props !! name = Some v.
Proof.
  intros Hnd Htitle Hf. revert props.
  induction Hf as [|f fields (t & Ht & Hknown) _ IH]; intros props Hp; simpl; [done|].
  apply IH. destruct (findProperty schema (aliases f) (types f)) as [p|] eqn:E; [|done].
  rewrite Ht in E. apply findProperty_type in E as [Hin Hty].
  destruct (_ || _); [|done].
  destruct p as [pname ty]; cbn [fst snd] in *; subst ty.
  rewrite lookup_insert_ne; [done|]. intros ->.
  pose proof (NoDup_fst_unique _ _ _ _ Hnd Hin Htitle) as ->.
  repeat (apply elem_of_cons in Hknown as [Hk|Hknown]; [discriminate Hk|]).
  by apply elem_of_nil in Hknown.
Qed.

(** In a schema whose property names are distinct, the payload carries the
    title: the problem name, linked to the url, under a property of type
    title. *)
Theorem buildNotionProperties_writes_title data schema props :
  NoDup schema.*1 →
  buildNotionProperties data schema = inr props →
  ∃ name, (name, "title") ∈ schema
    ∧ props !! name = Some (PTitle (problemName data) (dataUrl data)).
Proof.
  intros Hnd. unfold buildNotionProperties.
  set (title := match findProperty schema _ ["title"] with
                | Some p => Some p | None => firstTitle schema end).
  assert (Htitle : ∀ p, title = Some p → (p.1, "title") ∈ schema).
  { intros [tn tt]. unfold title.
    destruct (findProperty schema _ ["title"]) as [q|] eqn:E.
    - intros [= ->]. apply findProperty_type in E as [? ?].
      cbn [fst snd] in *. by subst.
    - intros [? ?]%firstTitle_Some. cbn [fst snd] in *. by subst. }
  destruct title as [tp|]; [|done]. specialize (Htitle tp eq_refl).
  set (T := PTitle (problemName data) (dataUrl data)).
  set (p0 := ({[ tp.1 := T ]} : gmap string PropertyValue)).
  assert (H0 : p0 !! tp.1 = Some T) by apply lookup_singleton_eq.
  clearbody p0.
  assert (Hother : ∀ name type (v : PropertyValue) (m : gmap string PropertyValue),
             (name, type) ∈ schema → type ≠ "title" →
             m !! tp.1 = Some T → <[name := v]> m !! tp.1 = Some T).
  { intros name type v m Hin Hty Hm. rewrite lookup_insert_ne; [done|].
    intros ->. by pose proof (NoDup_fst_unique _ _ _ _ Hnd Hin Htitle). }
  set (p1 := match findProperty schema numberAliases ["number"] with
             | Some numberProp => _ | None => _ end).
  assert (H1 : p1 !! tp.1 = Some T).
  { unfold p1. destruct (findProperty schema numberAliases _) as [[nn nt]|] eqn:E; [|done].
    destruct (truthyNumber _); [|done].
    apply findProperty_type in E as [? ?]. cbn [fst snd] in *. subst.
    by eapply Hother. }
  clearbody p1.
  assert (H2 : addFields schema (fieldConfigs data) p1 !! tp.1 = Some T)
    by (eapply addFields_keeps; [done | done | apply fieldConfigs_types | done]).
  set (p2 := addFields schema (fieldConfigs data) p1) in *. clearbody p2.
  intros Hprops. exists tp.1. split; [done|].
  destruct (findProperty schema _ ["multi_select"]) as [[gn gt]|] eqn:E;
    [|by injection Hprops as <-].
  destruct (tags data) as [ts|]; [|by injection Hprops as <-].
  destruct (0 <? length ts)%nat; [|by injection Hprops as <-].
  injection Hprops as <-.
  apply findProperty_type in E as [? ?]. cbn [fst snd] in *. subst.
  by eapply Hother.
Qed.

Lemma buildNotionProperties_writes_title_witness :
  NoDup sampleSchema.*1
  ∧ ∃ props, buildNotionProperties codeData sampleSchema = inr props
      ∧ ∃ name, (name, "title") ∈ sampleSchema
          ∧ props !! name = Some (PTitle (problemName codeData) (dataUrl codeData)).
Proof.
  assert (H : NoDup sampleSchema.*1) by (apply (bool_decide_unpack _); vm_compute; exact I).
  split; [exact H|].
  destruct (buildNotionProperties codeData sampleSchema) as [e|props] eqn:E.
  - vm_compute in E. discriminate E.
  - exists props. split; [reflexivity|].
    exact (buildNotionProperties_writes_title codeData sampleSchema props H E).
Defined.

Local Ltac wr_step :=
  cbv beta iota delta
    [sendToNotion fetch json bind ret throw tryCatch modify gets];
  cbn [remote requests logRequest fst snd negb].

(** [sendToNotion] sends the schema request first and at most one create
    request after it, the create request only with the payload built from
    the schema it fetched; it resolves only to the body of a create request
    answered with success; and it leaves the store and the popup as they
    were. *)
Theorem sendToNotion_requests data st s :
  offNetwork (sendToNotion data st s).2 = offNetwork s
  ∧ (requests (sendToNotion data st s).2 = (requests s ++ [dbRequest st])%list
       ∧ (∃ e, (sendToNotion data st s).1 = Throw e)
     ∨ ∃ status db props,
         remote s (dbRequest st) = Response status (Some db)
         ∧ ok (status, Some db) = true
         ∧ buildNotionProperties data (default [] (properties db)) = inr props
         ∧ requests (sendToNotion data st s).2
           = (requests s ++
              [dbRequest st;
               CreatePage (splice (databaseId st)) (splice (notionToken st))
                 props (buildNotionChildren data)])%list
         ∧ ∀ page, (sendToNotion data st s).1 = Ok page →
             ∃ status', remote s (CreatePage (splice (databaseId st))
                                    (splice (notionToken st)) props
                                    (buildNotionChildren data))
                        = Response status' (Some page)
                        ∧ ok (status', Some page) = true).
Proof.
  unfold dbRequest. wr_step.
  destruct (remote s (GetDatabase _ _)) as [|status body] eqn:Hdb; wr_step.
  { split; [done|]. left. eauto. }
  destruct (ok (status, body)) eqn:Hok; wr_step.
  2: { destruct body; wr_step; (split; [done|]); left; eauto. }
  destruct body as [db|]; wr_step.
  2: { split; [done|]. left. eauto. }
  destruct (buildNotionProperties data _) as [e|props] eqn:Hprops; wr_step.
  { split; [done|]. left. eauto. }
  destruct (remote s (CreatePage (splice (databaseId st)) (splice (notionToken st))
                        props (buildNotionChildren data)))
    as [|status' body'] eqn:Hcreate; wr_step;
    [| destruct (ok (status', body')) eqn:Hok'; wr_step;
       destruct body' as [page|]; wr_step ];
    (split; [done|]); right; exists status, db, props;
    (split_and!; try done; try (by rewrite <- app_assoc));
    try (by intros ? [=]).
  intros page' [= <-]. eauto.
Qed.

End WriterExtra.

Section DuplicateExtra.
Import Chrome Popup PopupScenarios.

Local Ltac dup_step :=
  cbv beta iota delta
    [checkForDuplicate validateCacheInBackground checkPageExists
     findPageInNotion getCachedPage cachePage loadSettings
     showAlreadySavedBadge showNotionLinks
     storageGet storageSet storageRemove storageCall dateNow
     fetch json bind ret throw tryCatch modify gets];
  cbn [storageFault entries now remote requests settings problemNumber
       notionPageId notionPageUrl badgeHidden linksHidden background
       setEntries setNow logRequest setNotionPage setBadgeHidden
       setLinksHidden spawn fst snd negb andb orb].

(** [checkPageExists] never rejects, sends exactly the one page request,
    and answers true exactly when that request is answered with success by
    a page neither archived nor in the trash. *)
Theorem checkPageExists_true_iff pid st s :
  ∃ b, checkPageExists pid st s
       = (Ok b, logRequest (GetPage pid (splice (notionToken st))) s)
    ∧ (b = true ↔
       ∃ status page,
         remote s (GetPage pid (splice (notionToken st))) = Response status (Some page)
         ∧ ok (status, Some page) = true
         ∧ archived (self page) = false ∧ in_trash (self page) = false).
Proof.
  dup_step. destruct (remote s _) as [|status body] eqn:Hr; dup_step.
  { exists false. split; [done|]. split; [done|]. by intros (? & ? & [=] & _). }
  destruct (Nat.eqb_spec status 404) as [->|Hne]; dup_step.
  { exists false. split; [done|]. split; [done|].
    intros (? & ? & [= <- <-] & Hok & _). by vm_compute in Hok. }
  destruct (ok (status, body)) eqn:Hok; dup_step.
  2: { exists false. split; [done|]. split; [done|].
       intros (? & ? & [= <- <-] & Hok' & _). congruence. }
  destruct body as [page|]; dup_step.
  2: { exists false. split; [done|]. split; [done|]. by intros (? & ? & [=] & _). }
  eexists. split; [reflexivity|]. split.
  - intros [Ha Ht]%andb_true_iff. apply negb_true_iff in Ha, Ht. eauto 10.
  - intros (? & ? & [= <- <-] & _ & -> & ->). done.
Qed.

Lemma checkPageExists_run pid st s :
  ∃ b, checkPageExists pid st s
       = (Ok b, logRequest (GetPage pid (splice (notionToken st))) s).
Proof.
  dup_step. destruct (remote s _) as [|status body]; dup_step; [eauto|].
  destruct (status =? 404)%nat; dup_step; [eauto|].
  destruct (ok (status, body)); dup_step; [|eauto].
  destruct body; dup_step; eauto.
Qed.

(** The verification never rejects and never touches the entry of another
    key; the entry of its own problem is either left as it was or, when the
    existence check answered false, removed together with the page id and
    the indicator; and when the check answered true nothing but the list of
    requests has changed. *)
Theorem validateCacheInBackground_scope n pid st s :
  ∃ s', validateCacheInBackground n pid st s = (Ok (), s')
    ∧ (∀ key, key ≠ cacheKey n → entries s' !! key = entries s !! key)
    ∧ (entries s' !! cacheKey n = entries s !! cacheKey n
       ∨ ((checkPageExists pid st s).1 = Ok false
          ∧ entries s' !! cacheKey n = None
          ∧ notionPageId s' = None ∧ badgeHidden s' = true))
    ∧ ((checkPageExists pid st s).1 = Ok true → offNetwork s' = offNetwork s).
Proof.
  destruct (checkPageExists_run pid st s) as (b & Hb).
  unfold validateCacheInBackground, tryCatch, bind at 1. rewrite Hb.
  destruct b; cbn [negb fst].
  { eexists. split; [reflexivity|]. split_and!; [done | by left | done]. }
  dup_step. destruct (storageFault s (OpRemove (cacheKey n))) eqn:Hrem.
  { eexists. split; [reflexivity|]. split_and!; [done | by left | done]. }
  eexists. split; [reflexivity|]. cbn [entries setLinksHidden setBadgeHidden
    setNotionPage setEntries logRequest notionPageId badgeHidden].
  split_and!.
  - intros key Hne. by apply lookup_delete_ne.
  - right. split_and!; try done. apply lookup_delete_eq.
  - done.
Qed.

(** A page [findPageInNotion] resolves to is neither archived nor in the
    trash, and is the first result of a query on a number property of the
    schema it fetched, filtered by the problem number; those two requests
    are all it has sent. *)
Theorem findPageInNotion_sound n st s pg :
  (findPageInNotion n st s).1 = Ok (Some pg) →
  archived pg = false ∧ in_trash pg = false
  ∧ ∃ status db prop status' data,
      remote s (dbRequest st) = Response status (Some db)
      ∧ findProperty (default [] (properties db)) numberAliases ["number"] = Some prop
      ∧ prop.2 = "number"
      ∧ remote s (QueryDatabase (splice (databaseId st)) (splice (notionToken st))
                    prop.1 n) = Response status' (Some data)
      ∧ results data ≫= head = Some pg
      ∧ requests (findPageInNotion n st s).2
        = (requests s ++
           [dbRequest st;
            QueryDatabase (splice (databaseId st)) (splice (notionToken st))
              prop.1 n])%list.
Proof.
  unfold dbRequest. dup_step.
  destruct (remote s (GetDatabase _ _)) as [|status body] eqn:Hdb; dup_step; [done|].
  destruct (ok (status, body)); dup_step; [|done].
  destruct body as [db|]; dup_step; [|done].
  destruct (findProperty _ _ _) as [prop|] eqn:Hprop; dup_step; [|done].
  destruct (remote s (QueryDatabase _ _ _ _)) as [|status' body'] eqn:Hq;
    dup_step; [done|].
  destruct (ok (status', body')); dup_step; [|done].
  destruct body' as [data|]; dup_step; [|done].
  destruct (results data ≫= head) as [page|] eqn:Hres; dup_step; [|done].
  destruct (negb (archived page) && negb (in_trash page)) eqn:Hlive; dup_step;
    [|done].
  intros [= ->]. apply andb_true_iff in Hlive as [Ha Ht].
  apply negb_true_iff in Ha, Ht. split_and!; [done..|].
  exists status, db, prop, status', data. split_and!; try done.
  - by apply findProperty_type in Hprop as [_ ?].
  - by rewrite <- app_assoc.
Qed.

Lemma findPageInNotion_sound_witness :
  (findPageInNotion 42 sampleSettings foundState).1 = Ok (Some samplePage)
  ∧ archived samplePage = false ∧ in_trash samplePage = false.
Proof.
  assert (H : (findPageInNotion 42 sampleSettings foundState).1
              = Ok (Some samplePage)) by (vm_compute; reflexivity).
  pose proof (findPageInNotion_sound 42 sampleSettings foundState samplePage H)
    as (Ha & Ht & _).
  exact (conj H (conj Ha Ht)).
Defined.







End DuplicateExtra.

Section OptionsExtra.
Import Chrome Options.


End OptionsExtra.

Section SaveProperties.
Import Chrome Popup PopupScenarios Save.

Lemma numbered_leadingNumber name :
  numbered name = true ↔ is_Some (PageFields.leadingNumber name).
Proof.
  unfold numbered, PageFields.leadingNumber.
  destruct (_ && _); split; intros H; try done; try (by eexists);
    try (by destruct H as [? [=]]).
Qed.

(** With a problem number, the name written to the title always starts
    with a number and a full stop: a title that already does is kept, any
    other is prefixed with the problem number, which the extractor's
    reading of titles then gives back. *)
Theorem prepareNotionData_numbered pd num f elapsedMs iso n :
  truthyNumber num = Some n →
  numbered (problemName (prepareNotionData pd num f elapsedMs iso)) = true
  ∧ (numbered (title pd) = true →
     problemName (prepareNotionData pd num f elapsedMs iso) = title pd)
  ∧ (numbered (title pd) = false →
     PageFields.leadingNumber (problemName (prepareNotionData pd num f elapsedMs iso))
     = Some n).
Proof.
  intros Hn. cbn [prepareNotionData problemName]. rewrite Hn.
  destruct (numbered (title pd)) eqn:E; cbn [negb].
  - split_and!; [done | done | done].
  - change (pretty n +:+ ". " +:+ title pd)
      with (pretty n +:+ "." +:+ (" " +:+ title pd)).
    pose proof (leadingNumber_pretty n (" " +:+ title pd)) as H.
    split_and!; [|done|done].
    apply numbered_leadingNumber. rewrite H. by eexists.
Qed.

Lemma prepareNotionData_numbered_witness :
  truthyNumber (Some 1%N) = Some 1%N
  ∧ PageFields.leadingNumber
      (problemName (prepareNotionData SaveScenarios.sampleProblem (Some 1%N)
                      SaveScenarios.sampleForm 723000 "2024-01-01T00:00:00.000Z"))
    = Some 1%N.
Proof.
  assert (H : truthyNumber (Some 1%N) = Some 1%N) by reflexivity.
  split; [exact H|].
  apply (prepareNotionData_numbered SaveScenarios.sampleProblem (Some 1%N)
           SaveScenarios.sampleForm 723000 "2024-01-01T00:00:00.000Z" 1%N H).
  reflexivity.
Defined.

Lemma addCheckboxes_spec schema fields props (P : string → PropertyValue → Prop) :
  (∀ k v, props !! k = Some v → P k v) →
  (∀ k b, (k, "checkbox") ∈ schema → b ∈ fields.*2 → P k (PCheckbox b)) →
  ∀ k v, addCheckboxes schema fields props !! k = Some v → P k v.
Proof.
  revert props. induction fields as [|[al b] rest IH]; intros props Hp Hf; [done|].
  cbn [addCheckboxes]. apply IH.
  - destruct (findProperty schema al ["checkbox"]) as [[name ty]|] eqn:E; [|done].
    apply findProperty_type in E as [Hin Hty]. cbn [fst snd] in *. subst ty.
    intros k v. rewrite lookup_insert. case_decide as Ek; [|apply Hp].
    intros [= <-]. subst k. apply Hf; [done|]. cbn. by left.
  - intros k b' Hin Hb. apply Hf; [done|]. cbn. by right.
Qed.

(** The update only writes check boxes: every property it names is a
    checkbox property of the schema, set to the state of one of the two
    boxes of the form. *)
Theorem buildCheckboxUpdateProperties_checkboxes data schema k v :
  buildCheckboxUpdateProperties data schema !! k = Some v →
  (k, "checkbox") ∈ schema
  ∧ (v = PCheckbox (neededHint data) ∨ v = PCheckbox (canRedo data)).
Proof.
  unfold buildCheckboxUpdateProperties.
  apply (addCheckboxes_spec schema _ ∅
           (λ k v, (k, "checkbox") ∈ schema
                   ∧ (v = PCheckbox (neededHint data) ∨ v = PCheckbox (canRedo data)))).
  - intros k' v'. by rewrite lookup_empty.
  - intros k' b Hin Hb. split; [done|]. cbn in Hb.
    apply elem_of_cons in Hb as [->|Hb]; [by left|].
    apply list_elem_of_singleton in Hb as ->. by right.
Qed.

Lemma buildCheckboxUpdateProperties_checkboxes_witness :
  buildCheckboxUpdateProperties WriterScenarios.codeData
    WriterScenarios.sampleSchema !! "Needed Hint" = Some (PCheckbox false)
  ∧ ("Needed Hint", "checkbox") ∈ WriterScenarios.sampleSchema.
Proof.
  assert (H : buildCheckboxUpdateProperties WriterScenarios.codeData
                WriterScenarios.sampleSchema !! "Needed Hint"
              = Some (PCheckbox false)) by (vm_compute; reflexivity).
  exact (conj H (proj1 (buildCheckboxUpdateProperties_checkboxes _ _ _ _ H))).
Defined.

Lemma addCheckboxes_none schema fields props :
  Forall (λ prop, prop.2 ≠ "checkbox") schema →
  addCheckboxes schema fields props = props.
Proof.
  intros Hall. revert props. induction fields as [|[al b] rest IH]; intros props; [done|].
  cbn [addCheckboxes].
  destruct (findProperty schema al ["checkbox"]) as [p|] eqn:E; [|apply IH].
  apply findProperty_type in E as [Hin Hty]. by eapply Forall_forall in Hall.
Qed.

Local Ltac sv_step :=
  cbv beta iota delta
    [saveProblem updateExistingPage fetchPatch bindA retA throwA getsA modifyA
     lift tryCatchFinally loadSettings storageCall cachePage storageSet dateNow
     showAlreadySavedBadge showNotionLinks fetch json
     bind ret throw gets modify];
  cbn [base problemData form elapsed isoNow loading statusMessage resetScheduled
       patchRemote patches setBase setLoading setStatus scheduleReset logPatch
       storageFault entries now remote requests settings problemNumber
       notionPageId notionPageUrl badgeHidden linksHidden background
       setEntries logRequest setNotionPage setBadgeHidden setLinksHidden
       fst snd negb andb orb].

Local Ltac sv_top :=
  cbv beta iota delta
    [saveProblem bindA retA throwA getsA modifyA
     lift tryCatchFinally loadSettings storageCall
     showAlreadySavedBadge showNotionLinks
     bind ret throw gets modify];
  cbn [base problemData form elapsed isoNow loading statusMessage resetScheduled
       patchRemote patches setBase setLoading setStatus scheduleReset logPatch
       storageFault entries now remote requests settings problemNumber
       notionPageId notionPageUrl badgeHidden linksHidden background
       setEntries logRequest setNotionPage setBadgeHidden setLinksHidden
       fst snd negb andb orb].

(** Against a schema without a checkbox property the update throws its
    error after the schema request alone: no patch is sent. *)
Theorem updateExistingPage_no_checkbox pid data st a status db :
  remote (base a) (dbRequest st) = Response status (Some db) →
  ok (status, Some db) = true →
  Forall (λ prop, prop.2 ≠ "checkbox") (default [] (properties db)) →
  ∃ a', updateExistingPage pid data st a = (Throw noCheckboxError, a')
    ∧ patches a' = patches a
    ∧ requests (base a') = (requests (base a) ++ [dbRequest st])%list
    ∧ entries (base a') = entries (base a).
Proof.
  unfold dbRequest. intros Hremote Hok Hnone.
  eexists. split.
  - sv_step. rewrite Hremote. sv_step. rewrite Hok. sv_step.
    unfold buildCheckboxUpdateProperties.
    rewrite (addCheckboxes_none _ _ _ Hnone). reflexivity.
  - done.
Qed.

Lemma updateExistingPage_no_checkbox_witness :
  ∃ a', updateExistingPage "abc" WriterScenarios.codeData sampleSettings
          (SaveScenarios.savingPopup foundState) = (Throw noCheckboxError, a')
    ∧ patches a' = patches (SaveScenarios.savingPopup foundState)
    ∧ requests (base a')
      = (requests (base (SaveScenarios.savingPopup foundState))
         ++ [dbRequest sampleSettings])%list
    ∧ entries (base a') = entries (base (SaveScenarios.savingPopup foundState)).
Proof.
  apply (updateExistingPage_no_checkbox "abc" WriterScenarios.codeData
           sampleSettings (SaveScenarios.savingPopup foundState) 200
           WriterScenarios.liveSchemaBody).
  - reflexivity.
  - reflexivity.
  - repeat constructor; discriminate.
Defined.

Lemma sendToNotion_offNetwork data st s :
  offNetwork (sendToNotion data st s).2 = offNetwork s.
Proof.
  cbv beta iota delta [sendToNotion fetch json bind ret throw modify gets].
  cbn [remote logRequest].
  destruct (remote s _) as [|status body]; [done|]. cbn [fst snd].
  destruct (negb (ok (status, body))); [by destruct body|].
  destruct body as [db|]; [|done]. cbn [fst snd].
  destruct (buildNotionProperties _ _) as [e|props]; [done|].
  cbn [remote logRequest].
  destruct (remote s _) as [|status' body']; [done|]. cbn [fst snd].
  destruct (negb (ok (status', body'))); by destruct body'.
Qed.

(** When the create fails, the save shows the failure and leaves no trace:
    no cache entry is written, the page id stays unset, the indicator is
    untouched, the timer is not reset, and the overlay is taken down. *)
Theorem saveProblem_create_failure a pd e :
  readyToSave a pd →
  present (notionPageId (base a)) = false →
  (sendToNotion (preparedData a pd) (settings (base a)) (base a)).1 = Throw e →
  ∃ a', saveProblem a = (Ok (), a')
    ∧ entries (base a') = entries (base a)
    ∧ notionPageId (base a') = notionPageId (base a)
    ∧ badgeHidden (base a') = badgeHidden (base a)
    ∧ statusMessage a' = Some (Failure (messageOf e "Failed to save to Notion"))
    ∧ loading a' = false
    ∧ resetScheduled a' = resetScheduled a.
Proof.
  intros (Hpd & Hset & Htok & Hdb) Hknown Hsend. unfold preparedData in Hsend.
  pose proof (sendToNotion_offNetwork
                (prepareNotionData pd (problemNumber (base a)) (form a)
                   (elapsed a) (isoNow a)) (settings (base a)) (base a)) as Hoff.
  sv_step. rewrite Hpd. sv_step. rewrite Hset. sv_step.
  rewrite Htok, Hdb. sv_step. rewrite Hknown. sv_step.
  destruct (sendToNotion _ _ _) as [o s1]. cbn [fst snd] in *. subst o.
  eexists. split; [reflexivity|]. sv_step.
  injection Hoff as _ He _ _ _ _ Hid _ Hbadge _ _.
  by rewrite He, Hid, Hbadge.
Qed.

Lemma saveProblem_create_failure_witness :
  ∃ a', saveProblem (SaveScenarios.savingPopup offlineState) = (Ok (), a')
    ∧ entries (base a') = entries (base (SaveScenarios.savingPopup offlineState))
    ∧ notionPageId (base a')
      = notionPageId (base (SaveScenarios.savingPopup offlineState))
    ∧ badgeHidden (base a')
      = badgeHidden (base (SaveScenarios.savingPopup offlineState))
    ∧ statusMessage a'
      = Some (Failure (messageOf FetchError "Failed to save to Notion"))
    ∧ loading a' = false
    ∧ resetScheduled a' = resetScheduled (SaveScenarios.savingPopup offlineState).
Proof.
  apply (saveProblem_create_failure (SaveScenarios.savingPopup offlineState)
           SaveScenarios.sampleProblem FetchError).
  - repeat split.
  - reflexivity.
  - vm_compute. reflexivity.
Defined.

(** When the create succeeds and the problem has a number, the save writes
    the cache entry of the problem with the new page, remembers the page,
    shows the indicator and the success, schedules the reset of the timer
    and takes the overlay down. *)
Theorem saveProblem_create_success a pd page n :
  readyToSave a pd →
  present (notionPageId (base a)) = false →
  (sendToNotion (preparedData a pd) (settings (base a)) (base a)).1 = Ok page →
  truthyNumber (problemNumber (base a)) = Some n →
  storageFault (base a) (OpSet [cacheKey n]) = false →
  ∃ a', saveProblem a = (Ok (), a')
    ∧ entries (base a') !! cacheKey n
      = Some {| pageId := id (self page); url := pageUrl (self page);
                timestamp := Some (now (base a)) |}
    ∧ notionPageId (base a') = Some (id (self page))
    ∧ notionPageUrl (base a') = Some (pageUrl (self page))
    ∧ badgeHidden (base a') = false
    ∧ statusMessage a' = Some SavedToNotion
    ∧ resetScheduled a' = true
    ∧ loading a' = false.
Proof.
  intros (Hpd & Hset & Htok & Hdb) Hknown Hsend Hn Hput.
  unfold preparedData in Hsend.
  pose proof (sendToNotion_offNetwork
                (prepareNotionData pd (problemNumber (base a)) (form a)
                   (elapsed a) (isoNow a)) (settings (base a)) (base a)) as Hoff.
  sv_step. rewrite Hpd. sv_step. rewrite Hset. sv_step.
  rewrite Htok, Hdb. sv_step. rewrite Hknown. sv_step.
  destruct (sendToNotion _ _ _) as [o s1]. cbn [fst snd] in *. subst o.
  injection Hoff as _ He Hfault Hnow _ Hnum _ _ _ _ _.
  sv_step. rewrite Hnum, Hn. sv_step. rewrite Hfault, Hput. sv_step.
  destruct (present (Some (id (self page))) || present (Some (pageUrl (self page))));
    (eexists; split; [reflexivity|]); sv_step;
    (split_and!; try done); rewrite Hnow; apply lookup_insert_eq.
Qed.

Lemma saveProblem_create_success_witness :
  ∃ a', saveProblem (SaveScenarios.savingPopup foundState) = (Ok (), a')
    ∧ entries (base a') !! cacheKey 42
      = Some {| pageId := id (self WriterScenarios.livePageBody);
                url := pageUrl (self WriterScenarios.livePageBody);
                timestamp := Some (now (base (SaveScenarios.savingPopup foundState))) |}
    ∧ notionPageId (base a') = Some (id (self WriterScenarios.livePageBody))
    ∧ notionPageUrl (base a') = Some (pageUrl (self WriterScenarios.livePageBody))
    ∧ badgeHidden (base a') = false
    ∧ statusMessage a' = Some SavedToNotion
    ∧ resetScheduled a' = true
    ∧ loading a' = false.
Proof.
  apply (saveProblem_create_success (SaveScenarios.savingPopup foundState)
           SaveScenarios.sampleProblem WriterScenarios.livePageBody 42).
  - repeat split.
  - reflexivity.
  - vm_compute. reflexivity.
  - reflexivity.
  - reflexivity.
Defined.

(** When the page is created but the write of the cache entry is rejected,
    the save is shown as failed and the new page is not remembered: the
    page id stays unset and no entry is written. *)
Theorem saveProblem_cache_write_failure a pd page n :
  readyToSave a pd →
  present (notionPageId (base a)) = false →
  (sendToNotion (preparedData a pd) (settings (base a)) (base a)).1 = Ok page →
  truthyNumber (problemNumber (base a)) = Some n →
  storageFault (base a) (OpSet [cacheKey n]) = true →
  ∃ a', saveProblem a = (Ok (), a')
    ∧ entries (base a') = entries (base a)
    ∧ notionPageId (base a') = notionPageId (base a)
    ∧ statusMessage a' = Some (Failure (BrowserMessage StorageError))
    ∧ resetScheduled a' = resetScheduled a
    ∧ loading a' = false.
Proof.
  intros (Hpd & Hset & Htok & Hdb) Hknown Hsend Hn Hput.
  unfold preparedData in Hsend.
  pose proof (sendToNotion_offNetwork
                (prepareNotionData pd (problemNumber (base a)) (form a)
                   (elapsed a) (isoNow a)) (settings (base a)) (base a)) as Hoff.
  sv_step. rewrite Hpd. sv_step. rewrite Hset. sv_step.
  rewrite Htok, Hdb. sv_step. rewrite Hknown. sv_step.
  destruct (sendToNotion _ _ _) as [o s1]. cbn [fst snd] in *. subst o.
  injection Hoff as _ He Hfault Hnow _ Hnum Hid _ _ _ _.
  sv_step. rewrite Hnum, Hn. sv_step. rewrite Hfault, Hput. sv_step.
  eexists. split; [reflexivity|]. sv_step. by rewrite He, Hid.
Qed.

Lemma saveProblem_cache_write_failure_witness :
  ∃ a', saveProblem (SaveScenarios.savingPopup
                       (setFaults SaveScenarios.readOnlyStore foundState))
        = (Ok (), a')
    ∧ entries (base a') = entries foundState
    ∧ notionPageId (base a') = notionPageId foundState
    ∧ statusMessage a' = Some (Failure (BrowserMessage StorageError))
    ∧ resetScheduled a' = false
    ∧ loading a' = false.
Proof.
  apply (saveProblem_cache_write_failure
           (SaveScenarios.savingPopup
              (setFaults SaveScenarios.readOnlyStore foundState))
           SaveScenarios.sampleProblem WriterScenarios.livePageBody 42).
  - repeat split.
  - reflexivity.
  - vm_compute. reflexivity.
  - reflexivity.
  - reflexivity.
Defined.

Lemma updateExistingPage_run pid data st a :
  ∃ o a', updateExistingPage pid data st a = (o, a')
    ∧ offNetwork (base a') = offNetwork (base a)
    ∧ requests (base a') = (requests (base a) ++ [dbRequest st])%list
    ∧ appFrame a' = appFrame a
    ∧ (patches a' = patches a
       ∨ ∃ db, patches a'
          = (patches a ++
             [{| patchPage := pid; patchToken := splice (notionToken st);
                 patchProperties :=
                   buildCheckboxUpdateProperties data (default [] (properties db)) |}])%list).
Proof.
  unfold dbRequest. sv_step.
  destruct (remote (base a) _) as [|status body]; sv_step.
  { eexists _, _. split; [reflexivity|]. split_and!; try done. by left. }
  destruct (ok (status, body)); sv_step.
  2: { destruct body; sv_step; eexists _, _; (split; [reflexivity|]);
       (split_and!; try done); by left. }
  destruct body as [db|]; sv_step.
  2: { eexists _, _. split; [reflexivity|]. split_and!; try done. by left. }
  destruct (size _ =? 0)%nat; sv_step.
  { eexists _, _. split; [reflexivity|]. split_and!; try done. by left. }
  destruct (patchRemote a _) as [|status' body']; sv_step.
  { eexists _, _. split; [reflexivity|]. split_and!; try done. right. by exists db. }
  destruct (ok (status', body')); sv_step; destruct body'; sv_step;
    eexists _, _; (split; [reflexivity|]); (split_and!; try done); right; by exists db.
Qed.

(** When the page is already known, the save only updates it: after the
    schema request it sends at most one patch, to that page, and never a
    create request; the cache and the page id are as before, the timer is
    not reset, and the overlay is taken down. *)
Theorem saveProblem_update_only a pd pid :
  readyToSave a pd →
  notionPageId (base a) = Some pid → JS.truthy pid = true →
  ∃ a', saveProblem a = (Ok (), a')
    ∧ requests (base a')
      = (requests (base a) ++ [dbRequest (settings (base a))])%list
    ∧ (patches a' = patches a
       ∨ ∃ props, patches a'
          = (patches a ++
             [{| patchPage := pid;
                 patchToken := splice (notionToken (settings (base a)));
                 patchProperties := props |}])%list)
    ∧ entries (base a') = entries (base a)
    ∧ notionPageId (base a') = Some pid
    ∧ resetScheduled a' = resetScheduled a
    ∧ loading a' = false.
Proof.
  intros (Hpd & Hset & Htok & Hdb) Hknown Hpid.
  sv_top. rewrite Hpd. sv_top. rewrite Hset. sv_top.
  rewrite Htok, Hdb. sv_top. rewrite Hknown. cbn [present default from_option].
  rewrite Hpid. sv_top.
  destruct (updateExistingPage_run pid
              (prepareNotionData pd (problemNumber (base a)) (form a)
                 (elapsed a) (isoNow a))
              (settings (base a)) (setLoading true (setBase (base a) a)))
    as (o & a1 & Hrun & Hoff & Hreq & Hframe & Hpatch).
  unfold Datatypes.id. rewrite Hrun.
  cbn [base setLoading setBase patches] in Hoff, Hreq, Hpatch.
  injection Hoff as _ He _ _ _ _ Hid Hurl _ _ _.
  injection Hframe as _ _ _ _ _ _ Hreset _.
  cbn [resetScheduled setLoading setBase] in Hreset.
  assert (Hp : patches a1 = patches a
               ∨ ∃ props, patches a1
                  = (patches a ++
                     [{| patchPage := pid;
                         patchToken := splice (notionToken (settings (base a)));
                         patchProperties := props |}])%list).
  { destruct Hpatch as [?|[db ?]]; [by left | right; eauto]. }
  destruct o as [page|e]; sv_top.
  - rewrite Hid, Hurl, Hknown.
    destruct (present (Some pid) || present (notionPageUrl (base a)));
      (eexists; split; [reflexivity|]); sv_top; split_and!; try done;
      by rewrite Hid.
  - eexists. split; [reflexivity|]. sv_top. split_and!; try done.
    by rewrite Hid.
Qed.

Lemma saveProblem_update_only_witness :
  ∃ a', saveProblem (SaveScenarios.savingPopup
                       (setNotionPage (Some "abc") None foundState)) = (Ok (), a')
    ∧ requests (base a') = [dbRequest sampleSettings]
    ∧ notionPageId (base a') = Some "abc"
    ∧ loading a' = false.
Proof.
  destruct (saveProblem_update_only
              (SaveScenarios.savingPopup (setNotionPage (Some "abc") None foundState))
              SaveScenarios.sampleProblem "abc")
    as (a' & Hrun & Hreq & _ & _ & Hid & _ & Hload).
  - repeat split.
  - reflexivity.
  - reflexivity.
  - exists a'. split; [exact Hrun|]. split; [exact Hreq|]. split; [exact Hid|].
    exact Hload.
Defined.

End SaveProperties.
